(** * Renovation shopping planner: the item store, its derived views and
      the AI-assisted workflows of [RenovationService], with the handlers of
      [RenovationPlannerComponent] that guard them.

    The TypeScript sources are embedded shallowly:
    - a JavaScript [number] is an IEEE 754 binary64 value: Rocq's primitive
      [float], with its own [*], [+] and [-];
    - a JavaScript string is a [string]; [trim] strips the ASCII members of the
      ECMAScript white space and line terminator sets;
    - an interface is a record in a module of its name;
    - a signal is a field of [Store]; a method is a computation in the monad
      [M], which threads the store, the chronological list of observable
      effects, and the number of calls made to the host;
    - what the host decides (the clock, the random source, the generative
      model's replies, [JSON.parse], [localeCompare]) is a field of [Host]. *)

From Stdlib Require Import List String Ascii ZArith NArith Bool Lia.
From Stdlib Require Import DecimalString Floats Sorted Permutation.
Import ListNotations.

Open Scope string_scope.
Open Scope list_scope.

(* ===================================================================== *)
(** ** JavaScript values *)

Definition number : Type := float.

Module Number.
Definition mul (a b : number) : number := PrimFloat.mul a b.
Definition add (a b : number) : number := PrimFloat.add a b.
Definition sub (a b : number) : number := PrimFloat.sub a b.
Definition zero : number := 0%float.
(** [v || 0] on a number: [0], [-0] and [NaN] are falsy. *)
Definition or_zero (v : number) : number :=
  if (PrimFloat.eqb v zero || PrimFloat.is_nan v)%bool then zero else v.
End Number.

(** [Number.prototype.toString] of an integer such as [Date.now()]. *)
Definition toString (z : Z) : string := NilZero.string_of_int (Z.to_int z).

(** White space in the sense of [String.prototype.trim], ASCII part:
    TAB, LF, VT, FF, CR, SPACE. *)
Definition is_white_space (c : ascii) : bool :=
  match N_of_ascii c with
  | 9%N | 10%N | 11%N | 12%N | 13%N | 32%N => true
  | _ => false
  end.

Fixpoint trimStart (s : string) : string :=
  match s with
  | EmptyString => EmptyString
  | String c r => if is_white_space c then trimStart r else s
  end.

Fixpoint trimEnd (s : string) : string :=
  match s with
  | EmptyString => EmptyString
  | String c r =>
      match trimEnd r with
      | EmptyString => if is_white_space c then EmptyString else String c EmptyString
      | r' => String c r'
      end
  end.

Definition trim (s : string) : string := trimEnd (trimStart s).

(** [s || d] on a string: only the empty string is falsy. *)
Definition or_default (s d : string) : string :=
  if (s =? "")%string then d else s.

(** [o || d] where [o] may be [undefined] (or [null]). *)
Definition opt_or_default (o : option string) (d : string) : string :=
  match o with
  | Some s => or_default s d
  | None => d
  end.

(** A string is blank when nothing is left of it after [trim]. *)
Definition is_blank (s : string) : bool := (trim s =? "")%string.

Definition Nekategorizirano : string := "Nekategorizirano".
Definition kom : string := "kom".

(** A thrown value as the [catch] clauses read it: [error.message]. *)
Record JsError : Type := mkError { message : option string }.

(** [error.message || 'Nepoznata greška.'] *)
Definition message_or_unknown (error : JsError) : string :=
  opt_or_default (message error) "Nepoznata greška.".

(** Completion of an expression that may throw. *)
Inductive outcome (A : Type) : Type :=
| Threw (error : JsError)
| Returned (a : A).
Arguments Threw {A} error.
Arguments Returned {A} a.

(* ===================================================================== *)
(** ** interfaces/shopping-item.interface.ts *)

Module ShoppingItem.
Record t : Type := mk {
  id : string;
  name : string;
  category : string;
  quantity : number;
  unit : string;
  pricePerUnit : number;
  totalCost : number;
  purchased : bool
}.
End ShoppingItem.

(** [Omit<ShoppingItem, 'id' | 'totalCost'>], the argument of [addItem]. *)
Module Draft.
Record t : Type := mk {
  name : string;
  category : string;
  quantity : number;
  unit : string;
  pricePerUnit : number;
  purchased : bool
}.
End Draft.

(** [Partial<ShoppingItem>], the second argument of [updateItem]: [None] is
    a property the object does not have. (A property present with the value
    [undefined], which the spread would copy into the item, has no place in
    fields typed [number] and [string] and is left out.) *)
Module Partial.
Record t : Type := mk {
  id : option string;
  name : option string;
  category : option string;
  quantity : option number;
  unit : option string;
  pricePerUnit : option number;
  totalCost : option number;
  purchased : option bool
}.
Definition empty : t := mk None None None None None None None None.
End Partial.

(** An entry of the parsed reply. The interface types [category] and [unit]
    as strings; the service reads them with [|| default], so a property the
    reply leaves out is [None] here. *)
Module GeneratedShoppingItem.
Record t : Type := mk {
  name : string;
  category : option string;
  quantity : number;
  unit : option string;
  estimatedPricePerUnit : number
}.
End GeneratedShoppingItem.

Module CategorizedShoppingItem.
Record t : Type := mk {
  categoryName : string;
  items : list ShoppingItem.t
}.
End CategorizedShoppingItem.

Module GeneratedProductSuggestion.
Record t : Type := mk {
  productName : string;
  suggestedPrice : number;
  webShopLink : string;
  category : string;
  storeName : string;
  originalShoppingItemName : string
}.
End GeneratedProductSuggestion.

(* ===================================================================== *)
(** ** The signals *)

(** The signals of [RenovationService], and the two prompt signals of the
    component that its guarded handlers read and reset. *)
Record Store : Type := mkStore {
  itemsSignal : list ShoppingItem.t;
  isGenerating : bool;
  aiError : option string;
  detailedAnalysisResult : option string;
  isGeneratingDetailedAnalysis : bool;
  shoppingListSuggestions : list GeneratedProductSuggestion.t;
  isGeneratingShoppingList : bool;
  operationalBriefResult : option string;
  isGeneratingOperationalBrief : bool;
  userBudget : number;
  aiPrompt : string;
  detailedAnalysisPrompt : string
}.

(** The field initialisers of the two classes. *)
Definition initial : Store :=
  mkStore [] false None None false [] false None false Number.zero "" "".

(** [signal.set(v)], one constructor per signal. *)
Inductive assignment : Type :=
| itemsSignal_set (v : list ShoppingItem.t)
| isGenerating_set (v : bool)
| aiError_set (v : option string)
| detailedAnalysisResult_set (v : option string)
| isGeneratingDetailedAnalysis_set (v : bool)
| shoppingListSuggestions_set (v : list GeneratedProductSuggestion.t)
| isGeneratingShoppingList_set (v : bool)
| operationalBriefResult_set (v : option string)
| isGeneratingOperationalBrief_set (v : bool)
| userBudget_set (v : number)
| aiPrompt_set (v : string)
| detailedAnalysisPrompt_set (v : string).

Definition assign (a : assignment) (s : Store) : Store :=
  {|
    itemsSignal :=
      match a with itemsSignal_set v => v | _ => itemsSignal s end;
    isGenerating :=
      match a with isGenerating_set v => v | _ => isGenerating s end;
    aiError :=
      match a with aiError_set v => v | _ => aiError s end;
    detailedAnalysisResult :=
      match a with detailedAnalysisResult_set v => v | _ => detailedAnalysisResult s end;
    isGeneratingDetailedAnalysis :=
      match a with isGeneratingDetailedAnalysis_set v => v | _ => isGeneratingDetailedAnalysis s end;
    shoppingListSuggestions :=
      match a with shoppingListSuggestions_set v => v | _ => shoppingListSuggestions s end;
    isGeneratingShoppingList :=
      match a with isGeneratingShoppingList_set v => v | _ => isGeneratingShoppingList s end;
    operationalBriefResult :=
      match a with operationalBriefResult_set v => v | _ => operationalBriefResult s end;
    isGeneratingOperationalBrief :=
      match a with isGeneratingOperationalBrief_set v => v | _ => isGeneratingOperationalBrief s end;
    userBudget :=
      match a with userBudget_set v => v | _ => userBudget s end;
    aiPrompt :=
      match a with aiPrompt_set v => v | _ => aiPrompt s end;
    detailedAnalysisPrompt :=
      match a with detailedAnalysisPrompt_set v => v | _ => detailedAnalysisPrompt s end
  |}.

(* ===================================================================== *)
(** ** The host and the monad of methods *)

(** What [JSON.parse] hands to [generated.map]: an array of entries, or a
    value without a callable [map], on which the call raises [map_error]. *)
Inductive json (A : Type) : Type :=
| NotAnArray (map_error : JsError)
| JsArray (entries : list A).
Arguments NotAnArray {A} map_error.
Arguments JsArray {A} entries.

(** The arguments from which each workflow builds the [contents] of its
    [generateContent] request; the fixed prose and the response schema
    around them are left out. *)
Inductive request : Type :=
| MaterialsRequest (userPrompt : string)
| DetailedAnalysisRequest (userPrompt : string)
| ShoppingListRequest (itemsForPrompt : list GeneratedShoppingItem.t)
| OperationalBriefRequest (detailedAnalysis : option string)
    (shoppingItems : list ShoppingItem.t)
    (productSuggestions : list GeneratedProductSuggestion.t).

(** The host, indexed where it is not a function of its arguments by the
    number of host calls made before.
    - [Date_now n]: [Date.now()];
    - [Math_random_toString36 n]: [Math.random().toString(36)];
    - [generateContent n r]: [(await this.ai.models.generateContent(..)).text],
      or what the awaited call (or reading [text.trim]) throws;
    - [JSON_parse_materials], [JSON_parse_suggestions]: [JSON.parse] read at
      the type the service annotates the result with;
    - [localeCompare a b]: [a.localeCompare(b)]. *)
Record Host : Type := mkHost {
  Date_now : nat -> Z;
  Math_random_toString36 : nat -> string;
  generateContent : nat -> request -> outcome string;
  JSON_parse_materials : string -> outcome (json GeneratedShoppingItem.t);
  JSON_parse_suggestions : string -> outcome (list GeneratedProductSuggestion.t);
  localeCompare : string -> string -> Z
}.

(** What a method does that an observer can see, in the order it does it. *)
Inductive effect : Type :=
| Assigned (a : assignment)
| Requested (r : request)
| ConsoleError (label : string) (error : JsError).

Record World : Type := mkWorld {
  store : Store;
  effects : list effect;
  calls : nat
}.

Definition M (A : Type) : Type := Host -> World -> A * World.

Definition ret {A} (a : A) : M A := fun _ w => (a, w).

Definition bind {A B} (c : M A) (k : A -> M B) : M B :=
  fun h w => let (a, w') := c h w in k a h w'.

Declare Scope method_scope.
Delimit Scope method_scope with method.
Notation "x <- c ;; k" := (bind c (fun x => k))
  (at level 61, c at next level, right associativity) : method_scope.
Notation "c ;; k" := (bind c (fun _ => k))
  (at level 61, right associativity) : method_scope.
Open Scope method_scope.

(** [signal()] *)
Definition read {T} (sg : Store -> T) : M T :=
  fun _ w => (sg (store w), w).

(** [signal.set(v)] *)
Definition set (a : assignment) : M unit :=
  fun _ w => (tt, mkWorld (assign a (store w)) (effects w ++ [Assigned a]) (calls w)).

(** [this.itemsSignal.update(f)] *)
Definition itemsSignal_update (f : list ShoppingItem.t -> list ShoppingItem.t) : M unit :=
  items <- read itemsSignal ;;
  set (itemsSignal_set (f items)).

Definition console_error (label : string) (error : JsError) : M unit :=
  fun _ w => (tt, mkWorld (store w) (effects w ++ [ConsoleError label error]) (calls w)).

Definition host_call {T} (f : Host -> nat -> T) : M T :=
  fun h w => (f h (calls w), mkWorld (store w) (effects w) (S (calls w))).

Definition now : M Z := host_call Date_now.

Definition random36 : M string := host_call Math_random_toString36.

(** [await this.ai.models.generateContent(..)] followed by [response.text]. *)
Definition await_generateContent (r : request) : M (outcome string) :=
  fun h w =>
    (generateContent h (calls w) r,
     mkWorld (store w) (effects w ++ [Requested r]) (S (calls w))).

Definition JSON_parse_as_materials (jsonStr : string)
  : M (outcome (json GeneratedShoppingItem.t)) :=
  fun h w => (JSON_parse_materials h jsonStr, w).

Definition JSON_parse_as_suggestions (jsonStr : string)
  : M (outcome (list GeneratedProductSuggestion.t)) :=
  fun h w => (JSON_parse_suggestions h jsonStr, w).

(** Sequencing inside a [try] block: the first exception ends the block. *)
Definition and_then {A B} (c : M (outcome A)) (k : A -> M (outcome B)) : M (outcome B) :=
  r <- c ;;
  match r with
  | Threw error => ret (Threw error)
  | Returned a => k a
  end.

Notation "x <-? c ;; k" := (and_then c (fun x => k))
  (at level 61, c at next level, right associativity) : method_scope.

Definition normally {A} (c : M A) : M (outcome A) :=
  a <- c ;; ret (Returned a).

(** [try { body } catch (error) { handler } finally { finalizer }], for a
    handler and a finalizer that do not throw. *)
Definition try_catch_finally (body : M (outcome unit))
  (handler : JsError -> M unit) (finalizer : M unit) : M unit :=
  r <- body ;;
  match r with
  | Threw error => handler error
  | Returned _ => ret tt
  end ;;
  finalizer.

Fixpoint mapM {A B} (f : A -> M B) (l : list A) : M (list B) :=
  match l with
  | [] => ret []
  | a :: r => b <- f a ;; bs <- mapM f r ;; ret (b :: bs)
  end.

(** [generated.map(f)] *)
Definition Array_map {A B} (generated : json A) (f : A -> M B) : M (outcome (list B)) :=
  match generated with
  | NotAnArray map_error => ret (Threw map_error)
  | JsArray entries => normally (mapM f entries)
  end.

(** Running a method from a world. *)
Definition run {A} (h : Host) (w : World) (c : M A) : World := snd (c h w).

Definition fresh (s : Store) : World := mkWorld s [] 0.

(* ===================================================================== *)
(** ** Arrays and plain objects *)

(** [Array.prototype.sort(compare)]. For a consistent comparator ECMAScript
    fixes the result, the stable sorted permutation; insertion from the right
    computes it: an element goes before the first one it does not follow. *)
Fixpoint insert_sorted {A} (compare : A -> A -> Z) (x : A) (l : list A) : list A :=
  match l with
  | [] => [x]
  | y :: r => if (compare x y <=? 0)%Z then x :: l else y :: insert_sorted compare x r
  end.

Definition Array_sort {A} (compare : A -> A -> Z) (l : list A) : list A :=
  fold_right (insert_sorted compare) [] l.

(** The own properties of an object, in [Object.keys] order. *)
Definition JsObject (V : Type) : Type := list (string * V).

Definition Object_keys {V} (o : JsObject V) : list string := map fst o.

Fixpoint own {V} (o : JsObject V) (k : string) : option V :=
  match o with
  | [] => None
  | (k', v) :: r => if (k' =? k)%string then Some v else own r k
  end.

(** The property names every plain object inherits from [Object.prototype]. *)
Definition Object_prototype_keys : list string :=
  [ "constructor"; "hasOwnProperty"; "isPrototypeOf"; "propertyIsEnumerable";
    "toLocaleString"; "toString"; "valueOf"; "__proto__";
    "__defineGetter__"; "__defineSetter__"; "__lookupGetter__"; "__lookupSetter__" ].

Definition inherited (k : string) : bool :=
  existsb (String.eqb k) Object_prototype_keys.

(** [o[k]] on an object literal: an own property, else what the prototype
    has under that name (a function, or the prototype itself), else
    [undefined]. *)
Inductive property (V : Type) : Type :=
| Own (v : V)
| Inherited
| Undefined.
Arguments Own {V} v.
Arguments Inherited {V}.
Arguments Undefined {V}.

Definition get {V} (o : JsObject V) (k : string) : property V :=
  match own o k with
  | Some v => Own v
  | None => if inherited k then Inherited else Undefined
  end.

Definition digit (c : ascii) : option N :=
  let n := N_of_ascii c in
  if ((48 <=? n) && (n <=? 57))%N then Some (n - 48)%N else None.

Fixpoint digits (s : string) (acc : N) : option N :=
  match s with
  | EmptyString => Some acc
  | String c r =>
      match digit c with
      | Some d => digits r (acc * 10 + d)%N
      | None => None
      end
  end.

(** An array index: the canonical decimal string of an integer below
    [2^32 - 1]. Such keys come first in key order, in ascending order. *)
Definition array_index (k : string) : option N :=
  match k with
  | EmptyString => None
  | String c r =>
      if ((c =? "0")%char && negb (r =? "")%string)%bool then None
      else match digits k 0 with
           | Some n => if (n <=? 4294967294)%N then Some n else None
           | None => None
           end
  end.

(** Where a new own property [k] lands among the existing ones. *)
Fixpoint create {V} (k : string) (v : V) (o : JsObject V) : JsObject V :=
  match o with
  | [] => [(k, v)]
  | (k', v') :: r =>
      match array_index k, array_index k' with
      | Some n, Some n' =>
          if (n <? n')%N then (k, v) :: o else (k', v') :: create k v r
      | Some _, None => (k, v) :: o
      | None, _ => (k', v') :: create k v r
      end
  end.

Fixpoint replace {V} (k : string) (v : V) (o : JsObject V) : JsObject V :=
  match o with
  | [] => []
  | (k', v') :: r =>
      if (k' =? k)%string then (k', v) :: r else (k', v') :: replace k v r
  end.

(** A [Map]: entries in insertion order, no prototype behind the keys. *)
Definition Map_get {V} (m : list (string * V)) (k : string) : option V := own m k.

Definition Map_set {V} (k : string) (v : V) (m : list (string * V)) : list (string * V) :=
  match own m k with
  | Some _ => replace k v m
  | None => m ++ [(k, v)]
  end.

Variant exception : Type := TypeError.

(* ===================================================================== *)
(** ** services/renovation.service.ts: the derived views *)

(** [readonly allItems = this.itemsSignal.asReadonly()] *)
Definition allItems (s : Store) : list ShoppingItem.t := itemsSignal s.

(** [item.category?.trim() || 'Nekategorizirano'] *)
Definition category_key (item : ShoppingItem.t) : string :=
  or_default (trim (ShoppingItem.category item)) Nekategorizirano.

(** The body of [items.forEach] in [categorizedItems]: [categories] is an
    object literal, so [categories[category]] also finds what the category
    names on [Object.prototype]; that value is truthy and has no [push]. *)
Definition categorize (categories : JsObject (list ShoppingItem.t))
  (item : ShoppingItem.t) : exception + JsObject (list ShoppingItem.t) :=
  let category := category_key item in
  match get categories category with
  | Undefined => inr (create category [item] categories)
  | Own group => inr (replace category (group ++ [item]) categories)
  | Inherited => inl TypeError
  end.

Fixpoint forEach_categorize (items : list ShoppingItem.t)
  (categories : JsObject (list ShoppingItem.t))
  : exception + JsObject (list ShoppingItem.t) :=
  match items with
  | [] => inr categories
  | item :: rest =>
      match categorize categories item with
      | inl e => inl e
      | inr categories' => forEach_categorize rest categories'
      end
  end.

Definition compare_by_name (h : Host) (a b : ShoppingItem.t) : Z :=
  localeCompare h (ShoppingItem.name a) (ShoppingItem.name b).

(** [for (const categoryName in categories) categories[categoryName].sort(..)] *)
Definition sort_groups (h : Host) (categories : JsObject (list ShoppingItem.t))
  : JsObject (list ShoppingItem.t) :=
  map (fun entry => (fst entry, Array_sort (compare_by_name h) (snd entry))) categories.

Definition group_of (categories : JsObject (list ShoppingItem.t)) (categoryName : string)
  : list ShoppingItem.t :=
  match own categories categoryName with
  | Some group => group
  | None => []
  end.

Definition categorizedItems (h : Host) (s : Store)
  : exception + list CategorizedShoppingItem.t :=
  let items := itemsSignal s in
  match forEach_categorize items [] with
  | inl e => inl e
  | inr grouped =>
      let categories := sort_groups h grouped in
      let sortedCategories := Array_sort (localeCompare h) (Object_keys categories) in
      inr (map (fun categoryName =>
                  CategorizedShoppingItem.mk categoryName (group_of categories categoryName))
               sortedCategories)
  end.

(** [this.itemsSignal().reduce((sum, item) => sum + item.totalCost, 0)] *)
Definition totalBudget (s : Store) : number :=
  fold_left (fun sum item => Number.add sum (ShoppingItem.totalCost item))
            (itemsSignal s) Number.zero.

Definition budgetDifference (s : Store) : number :=
  Number.sub (userBudget s) (totalBudget s).

Definition Map_get_or_zero (costsMap : list (string * number)) (category : string) : number :=
  match Map_get costsMap category with
  | Some v => Number.or_zero v
  | None => Number.zero
  end.

Definition categoryCosts (h : Host) (s : Store) : list (string * number) :=
  let costsMap :=
    fold_left (fun costsMap item =>
                 let category := category_key item in
                 Map_set category
                   (Number.add (Map_get_or_zero costsMap category)
                               (ShoppingItem.totalCost item))
                   costsMap)
              (itemsSignal s) [] in
  Array_sort (fun a b => localeCompare h (fst a) (fst b)) costsMap.

(* ===================================================================== *)
(** ** services/renovation.service.ts: the item store *)

Definition addItem (item : Draft.t) : M unit :=
  date <- now ;;
  let newItem :=
    ShoppingItem.mk
      (toString date)
      (Draft.name item)
      (or_default (Draft.category item) Nekategorizirano)
      (Draft.quantity item)
      (or_default (Draft.unit item) kom)
      (Draft.pricePerUnit item)
      (Number.mul (Draft.quantity item) (Draft.pricePerUnit item))
      (Draft.purchased item) in
  itemsSignal_update (fun items => items ++ [newItem]).

Definition overridden {T} (update : option T) (current : T) : T :=
  match update with
  | Some v => v
  | None => current
  end.

Definition defined {T} (update : option T) : bool :=
  match update with
  | Some _ => true
  | None => false
  end.

(** [{ ...item, ...updates }] *)
Definition spread (item : ShoppingItem.t) (updates : Partial.t) : ShoppingItem.t :=
  ShoppingItem.mk
    (overridden (Partial.id updates) (ShoppingItem.id item))
    (overridden (Partial.name updates) (ShoppingItem.name item))
    (overridden (Partial.category updates) (ShoppingItem.category item))
    (overridden (Partial.quantity updates) (ShoppingItem.quantity item))
    (overridden (Partial.unit updates) (ShoppingItem.unit item))
    (overridden (Partial.pricePerUnit updates) (ShoppingItem.pricePerUnit item))
    (overridden (Partial.totalCost updates) (ShoppingItem.totalCost item))
    (overridden (Partial.purchased updates) (ShoppingItem.purchased item)).

(** The callback of [items.map] in [updateItem]. *)
Definition updated (id : string) (updates : Partial.t) (item : ShoppingItem.t)
  : ShoppingItem.t :=
  if (ShoppingItem.id item =? id)%string then
    let updatedItem := spread item updates in
    let totalCost :=
      if (defined (Partial.quantity updates) || defined (Partial.pricePerUnit updates))%bool
      then Number.mul (ShoppingItem.quantity updatedItem) (ShoppingItem.pricePerUnit updatedItem)
      else ShoppingItem.totalCost updatedItem in
    let category :=
      match Partial.category updates with
      | Some c => or_default c Nekategorizirano
      | None => ShoppingItem.category updatedItem
      end in
    let unit :=
      match Partial.unit updates with
      | Some u => or_default u kom
      | None => ShoppingItem.unit updatedItem
      end in
    ShoppingItem.mk
      (ShoppingItem.id updatedItem)
      (ShoppingItem.name updatedItem)
      category
      (ShoppingItem.quantity updatedItem)
      unit
      (ShoppingItem.pricePerUnit updatedItem)
      totalCost
      (ShoppingItem.purchased updatedItem)
  else item.

Definition updateItem (id : string) (updates : Partial.t) : M unit :=
  itemsSignal_update (fun items => map (updated id updates) items).

Definition removeItem (id : string) : M unit :=
  itemsSignal_update
    (fun items => filter (fun item => negb (ShoppingItem.id item =? id)%string) items).

Definition clearAllItems : M unit :=
  set (itemsSignal_set []).

(* ===================================================================== *)
(** ** services/renovation.service.ts: the AI workflows *)

(** The callback of [generated.map] in [generateRenovationMaterials]. *)
Definition toShoppingItem (genItem : GeneratedShoppingItem.t) : M ShoppingItem.t :=
  date <- now ;;
  random <- random36 ;;
  ret (ShoppingItem.mk
         (toString date ++ substring 2 7 random)%string
         (GeneratedShoppingItem.name genItem)
         (opt_or_default (GeneratedShoppingItem.category genItem) Nekategorizirano)
         (GeneratedShoppingItem.quantity genItem)
         (opt_or_default (GeneratedShoppingItem.unit genItem) kom)
         (GeneratedShoppingItem.estimatedPricePerUnit genItem)
         (Number.mul (GeneratedShoppingItem.quantity genItem)
                     (GeneratedShoppingItem.estimatedPricePerUnit genItem))
         false).

Definition materials_error_prefix : string :=
  "Greška pri generiranju popisa. Molimo pokušajte ponovno. Detalji: ".

Definition generateRenovationMaterials (userPrompt : string) : M unit :=
  set (isGenerating_set true) ;;
  set (aiError_set None) ;;
  try_catch_finally
    (text <-? await_generateContent (MaterialsRequest userPrompt) ;;
     let jsonStr := trim text in
     generated <-? JSON_parse_as_materials jsonStr ;;
     itemsToAdd <-? Array_map generated toShoppingItem ;;
     normally (itemsSignal_update (fun currentItems => currentItems ++ itemsToAdd)))
    (fun error =>
       console_error "Error generating renovation materials:" error ;;
       set (aiError_set (Some (materials_error_prefix ++ message_or_unknown error)%string)))
    (set (isGenerating_set false)).

Definition analysis_error_prefix : string :=
  "Greška pri generiranju detaljne analize. Molimo pokušajte ponovno. Detalji: ".

Definition generateDetailedAnalysis (userPrompt : string) : M unit :=
  set (isGeneratingDetailedAnalysis_set true) ;;
  set (aiError_set None) ;;
  set (detailedAnalysisResult_set None) ;;
  try_catch_finally
    (text <-? await_generateContent (DetailedAnalysisRequest userPrompt) ;;
     normally (set (detailedAnalysisResult_set (Some (trim text)))))
    (fun error =>
       console_error "Error generating detailed analysis:" error ;;
       set (aiError_set (Some (analysis_error_prefix ++ message_or_unknown error)%string)))
    (set (isGeneratingDetailedAnalysis_set false)).

Definition empty_list_error : string :=
  "Popis za kupnju je prazan. Dodajte stavke prije generiranja preporuka.".

Definition suggestions_error_prefix : string :=
  "Greška pri generiranju shopping liste. Molimo provjerite da imate stavke na popisu i pokušajte ponovno. Detalji: ".

Definition itemForPrompt (item : ShoppingItem.t) : GeneratedShoppingItem.t :=
  GeneratedShoppingItem.mk
    (ShoppingItem.name item)
    (Some (ShoppingItem.category item))
    (ShoppingItem.quantity item)
    (Some (ShoppingItem.unit item))
    (ShoppingItem.pricePerUnit item).

Definition generateShoppingListSuggestions (shoppingItems : list ShoppingItem.t) : M unit :=
  set (isGeneratingShoppingList_set true) ;;
  set (aiError_set None) ;;
  set (shoppingListSuggestions_set []) ;;
  if (List.length shoppingItems =? 0)%nat then
    set (aiError_set (Some empty_list_error)) ;;
    set (isGeneratingShoppingList_set false)
  else
    let itemsForPrompt := map itemForPrompt shoppingItems in
    try_catch_finally
      (text <-? await_generateContent (ShoppingListRequest itemsForPrompt) ;;
       let jsonStr := trim text in
       generated <-? JSON_parse_as_suggestions jsonStr ;;
       normally (set (shoppingListSuggestions_set generated)))
      (fun error =>
         console_error "Error generating shopping list suggestions:" error ;;
         set (aiError_set (Some (suggestions_error_prefix ++ message_or_unknown error)%string)))
      (set (isGeneratingShoppingList_set false)).

Definition no_data_error : string :=
  "Nema dovoljno podataka za generiranje sažetka. Generirajte barem jednu analizu ili popis.".

Definition brief_error_prefix : string :=
  "Greška pri generiranju operativnog sažetka. Molimo pokušajte ponovno. Detalji: ".

(** [!detailedAnalysis] on [string | null] *)
Definition falsy (o : option string) : bool :=
  match o with
  | Some s => (s =? "")%string
  | None => true
  end.

Definition generateOperationalBrief (detailedAnalysis : option string)
  (shoppingItems : list ShoppingItem.t)
  (productSuggestions : list GeneratedProductSuggestion.t) : M unit :=
  set (isGeneratingOperationalBrief_set true) ;;
  set (aiError_set None) ;;
  set (operationalBriefResult_set None) ;;
  if (falsy detailedAnalysis && (List.length shoppingItems =? 0)%nat
      && (List.length productSuggestions =? 0)%nat)%bool then
    set (aiError_set (Some no_data_error)) ;;
    set (isGeneratingOperationalBrief_set false)
  else
    try_catch_finally
      (text <-? await_generateContent
                  (OperationalBriefRequest detailedAnalysis shoppingItems productSuggestions) ;;
       normally (set (operationalBriefResult_set (Some (trim text)))))
      (fun error =>
         console_error "Error generating operational brief:" error ;;
         set (aiError_set (Some (brief_error_prefix ++ message_or_unknown error)%string)))
      (set (isGeneratingOperationalBrief_set false)).

(* ===================================================================== *)
(** ** components/renovation-planner: the handlers that start a workflow *)

Definition missing_description_error : string :=
  "Molimo unesite opis stana za generiranje popisa.".

Definition onGenerateList : M unit :=
  text <- read aiPrompt ;;
  let prompt := trim text in
  if (prompt =? "")%string then
    set (aiError_set (Some missing_description_error))
  else
    generateRenovationMaterials prompt ;;
    set (aiPrompt_set "").



Definition empty_shopping_list_error : string :=
  "Vaš popis za kupnju je prazan. Dodajte stavke prije generiranja preporuka za shopping listu.".

Definition onGenerateShoppingList : M unit :=
  items <- read allItems ;;
  if (List.length items =? 0)%nat then
    set (aiError_set (Some empty_shopping_list_error))
  else
    generateShoppingListSuggestions items.



(** The methods through which the component changes the item collection. *)
Inductive operation : Type :=
| Add (item : Draft.t)
| Update (id : string) (updates : Partial.t)
| Remove (id : string)
| Clear.

Definition perform (op : operation) : M unit :=
  match op with
  | Add item => addItem item
  | Update id updates => updateItem id updates
  | Remove id => removeItem id
  | Clear => clearAllItems
  end.

Fixpoint perform_all (ops : list operation) : M unit :=
  match ops with
  | [] => ret tt
  | op :: rest => perform op ;; perform_all rest
  end.

(* ===================================================================== *)
(** ** components/renovation-planner: the handlers of the list *)

(** [isNaN(x)] on a number. *)
Definition isNaN (x : number) : bool := PrimFloat.is_nan x.

(** The fields of the form that [addItem] reads and resets. *)
Module Form.
Record t : Type := mk {
  newItemName : string;
  newItemCategory : string;
  newItemQuantity : number;
  newItemUnit : string;
  newItemPricePerUnit : number
}.
(** The field initialisers, and the values [addItem] sets after a success. *)
Definition cleared : t := mk "" "" 1%float "" 0%float.
End Form.

Module Planner.

Definition invalid_item_alert : string :=
  "Molimo unesite valjan naziv stavke, količinu veću od 0 i nenegativnu cijenu.".

(** [addItem()], from the form it reads to the form it leaves and the
    message it alerts, if any. *)
Definition addItem (form : Form.t) : M (Form.t * option string) :=
  let name := trim (Form.newItemName form) in
  let category := trim (Form.newItemCategory form) in
  let quantity := Form.newItemQuantity form in
  let unit := trim (Form.newItemUnit form) in
  let pricePerUnit := Form.newItemPricePerUnit form in
  if ((name =? "")%string || (quantity <=? 0)%float || (pricePerUnit <? 0)%float)%bool then
    ret (form, Some invalid_item_alert)
  else
    addItem (Draft.mk name (or_default category Nekategorizirano) quantity
                      (or_default unit kom) pricePerUnit false) ;;
    ret (Form.cleared, None).

Definition removeItem (id : string) : M unit := removeItem id.

Definition purchased_only (b : bool) : Partial.t :=
  Partial.mk None None None None None None None (Some b).

Definition name_only (n : string) : Partial.t :=
  Partial.mk None (Some n) None None None None None None.

Definition category_only (c : string) : Partial.t :=
  Partial.mk None None (Some c) None None None None None.

Definition quantity_only (q : number) : Partial.t :=
  Partial.mk None None None (Some q) None None None None.

Definition unit_only (u : string) : Partial.t :=
  Partial.mk None None None None (Some u) None None None.

Definition pricePerUnit_only (p : number) : Partial.t :=
  Partial.mk None None None None None (Some p) None None.

Definition togglePurchased (item : ShoppingItem.t) : M unit :=
  updateItem (ShoppingItem.id item) (purchased_only (negb (ShoppingItem.purchased item))).

(** The handlers of a text input take [value], the [input.value] of the
    event's target. *)
Definition updateName (item : ShoppingItem.t) (value : string) : M unit :=
  let name := trim value in
  if (name =? "")%string then ret tt
  else updateItem (ShoppingItem.id item) (name_only name).

Definition updateCategory (item : ShoppingItem.t) (value : string) : M unit :=
  let category := trim value in
  updateItem (ShoppingItem.id item) (category_only (or_default category Nekategorizirano)).

Definition updateUnit (item : ShoppingItem.t) (value : string) : M unit :=
  let unit := trim value in
  updateItem (ShoppingItem.id item) (unit_only (or_default unit kom)).

Definition increaseQuantity (item : ShoppingItem.t) : M unit :=
  updateItem (ShoppingItem.id item)
             (quantity_only (ShoppingItem.quantity item + 1)%float).

Definition decreaseQuantity (item : ShoppingItem.t) : M unit :=
  if (1 <? ShoppingItem.quantity item)%float then
    updateItem (ShoppingItem.id item)
               (quantity_only (ShoppingItem.quantity item - 1)%float)
  else ret tt.

(** [clearAll()], given the answer to its [confirm] dialog. *)
Definition clearAll (confirmed : bool) : M unit :=
  if confirmed then clearAllItems else ret tt.

Section NumberOfString.

(** [Number(input.value)]: the host's reading of a string as a number. *)
Variable toNumber : string -> number.

Definition updateQuantity (item : ShoppingItem.t) (value : string) : M unit :=
  let quantity := toNumber value in
  if (negb (isNaN quantity) && (0 <? quantity)%float)%bool then
    updateItem (ShoppingItem.id item) (quantity_only quantity)
  else ret tt.

Definition updatePricePerUnit (item : ShoppingItem.t) (value : string) : M unit :=
  let pricePerUnit := toNumber value in
  if (negb (isNaN pricePerUnit) && (0 <=? pricePerUnit)%float)%bool then
    updateItem (ShoppingItem.id item) (pricePerUnit_only pricePerUnit)
  else ret tt.

Definition updateUserBudget (value : string) : M unit :=
  let budget := toNumber value in
  if (negb (isNaN budget) && (0 <=? budget)%float)%bool then
    set (userBudget_set budget)
  else if (value =? "")%string then
    set (userBudget_set 0%float)
  else ret tt.

End NumberOfString.

End Planner.

(* ===================================================================== *)
(** ** components/renovation-planner: [groupedShoppingListSuggestions] *)

(** The objects the view is made of: a category with its products, a store
    with its categories. *)
Module SuggestionCategory.
Record t : Type := mk {
  categoryName : string;
  products : list GeneratedProductSuggestion.t
}.
End SuggestionCategory.

Module SuggestionStore.
Record t : Type := mk {
  storeName : string;
  categories : list SuggestionCategory.t
}.
End SuggestionStore.

Definition Ostale_trgovine : string := "Ostale trgovine".

(** [sug.storeName?.trim() || 'Ostale trgovine'] *)
Definition store_key (sug : GeneratedProductSuggestion.t) : string :=
  or_default (trim (GeneratedProductSuggestion.storeName sug)) Ostale_trgovine.

(** [sug.category?.trim() || 'Nekategorizirano'] *)
Definition suggestion_category_key (sug : GeneratedProductSuggestion.t) : string :=
  or_default (trim (GeneratedProductSuggestion.category sug)) Nekategorizirano.

Definition Map_has {V} (m : list (string * V)) (k : string) : bool :=
  match Map_get m k with
  | Some _ => true
  | None => false
  end.

(** [m.get(k)!] on a map of arrays or of maps. *)
Definition Map_get_list {V} (m : list (string * list V)) (k : string) : list V :=
  match Map_get m k with
  | Some v => v
  | None => []
  end.

Definition ProductsByCategory : Type := list (string * list GeneratedProductSuggestion.t).

(** The body of [suggestions.forEach]. The inner map and the array are
    changed in place: the store's entry and the category's entry keep their
    positions. *)
Definition file_suggestion (storeMap : list (string * ProductsByCategory))
  (sug : GeneratedProductSuggestion.t) : list (string * ProductsByCategory) :=
  let storeName := store_key sug in
  let categoryName := suggestion_category_key sug in
  let storeMap :=
    if Map_has storeMap storeName then storeMap else Map_set storeName [] storeMap in
  let categoryMap := Map_get_list storeMap storeName in
  let categoryMap :=
    if Map_has categoryMap categoryName then categoryMap
    else Map_set categoryName [] categoryMap in
  let products := Map_get_list categoryMap categoryName ++ [sug] in
  Map_set storeName (Map_set categoryName products categoryMap) storeMap.

Definition compare_by_productName (h : Host) (a b : GeneratedProductSuggestion.t) : Z :=
  localeCompare h (GeneratedProductSuggestion.productName a)
                  (GeneratedProductSuggestion.productName b).

Definition compare_by_categoryName (h : Host) (a b : SuggestionCategory.t) : Z :=
  localeCompare h (SuggestionCategory.categoryName a) (SuggestionCategory.categoryName b).

Definition compare_by_storeName (h : Host) (a b : SuggestionStore.t) : Z :=
  localeCompare h (SuggestionStore.storeName a) (SuggestionStore.storeName b).

Definition sorted_categories (h : Host) (categoryMap : ProductsByCategory)
  : list SuggestionCategory.t :=
  Array_sort (compare_by_categoryName h)
    (map (fun entry =>
            SuggestionCategory.mk (fst entry)
                                  (Array_sort (compare_by_productName h) (snd entry)))
         categoryMap).

Definition groupedShoppingListSuggestions (h : Host) (s : Store) : list SuggestionStore.t :=
  let suggestions := shoppingListSuggestions s in
  if (List.length suggestions =? 0)%nat then []
  else
    let storeMap := fold_left file_suggestion suggestions [] in
    let grouped :=
      map (fun entry => SuggestionStore.mk (fst entry) (sorted_categories h (snd entry)))
          storeMap in
    Array_sort (compare_by_storeName h) grouped.

(* ===================================================================== *)
(** ** The vocabulary of the statements *)

(** The sum of a list of numbers, accumulated from the left as [+] on
    binary64 values is not associative. *)
Fixpoint sum_from (acc : number) (l : list number) : number :=
  match l with
  | [] => acc
  | x :: r => sum_from (Number.add acc x) r
  end.

Definition sum (l : list number) : number := sum_from Number.zero l.

(** [totalCost] agrees with [quantity] and [pricePerUnit]. *)
Definition consistent (item : ShoppingItem.t) : Prop :=
  ShoppingItem.totalCost item =
  Number.mul (ShoppingItem.quantity item) (ShoppingItem.pricePerUnit item).

(** Operations whose [updateItem] fields leave [totalCost] out. *)
Definition leaves_totalCost_out (op : operation) : Prop :=
  match op with
  | Update _ updates => Partial.totalCost updates = None
  | _ => True
  end.

(** The store after a run of effects: assignments apply in order. *)
Fixpoint replay (history : list effect) (s : Store) : Store :=
  match history with
  | [] => s
  | Assigned a :: rest => replay rest (assign a s)
  | _ :: rest => replay rest s
  end.

Definition is_request (e : effect) : bool :=
  match e with
  | Requested _ => true
  | _ => false
  end.

(** How [generateShoppingListSuggestions] opens, before it looks at its
    argument. *)
Definition suggestions_opening : list effect :=
  [ Assigned (isGeneratingShoppingList_set true);
    Assigned (aiError_set None);
    Assigned (shoppingListSuggestions_set []) ].

Definition suggestions_rejection : list effect :=
  [ Assigned (aiError_set (Some empty_list_error));
    Assigned (isGeneratingShoppingList_set false) ].

(** What the [try] block of [generateRenovationMaterials] gets out of the
    host at host call [n]: the entries of the parsed array, or the exception
    of the request, of [JSON.parse], or of [map] on a value that is not an
    array. *)
Definition materials_reply (h : Host) (n : nat) (userPrompt : string)
  : outcome (list GeneratedShoppingItem.t) :=
  match generateContent h n (MaterialsRequest userPrompt) with
  | Threw error => Threw error
  | Returned text =>
      match JSON_parse_materials h (trim text) with
      | Threw error => Threw error
      | Returned (NotAnArray map_error) => Threw map_error
      | Returned (JsArray entries) => Returned entries
      end
  end.

Definition suggestions_reply (h : Host) (n : nat) (shoppingItems : list ShoppingItem.t)
  : outcome (list GeneratedProductSuggestion.t) :=
  match generateContent h n (ShoppingListRequest (map itemForPrompt shoppingItems)) with
  | Threw error => Threw error
  | Returned text => JSON_parse_suggestions h (trim text)
  end.

(** The items [generated.map] builds when its first host call is call [n]:
    two host calls an entry, the clock and then the random source. *)
Fixpoint shoppingItems_from (h : Host) (n : nat) (entries : list GeneratedShoppingItem.t)
  : list ShoppingItem.t :=
  match entries with
  | [] => []
  | genItem :: rest =>
      ShoppingItem.mk
        (toString (Date_now h n) ++ substring 2 7 (Math_random_toString36 h (S n)))%string
        (GeneratedShoppingItem.name genItem)
        (opt_or_default (GeneratedShoppingItem.category genItem) Nekategorizirano)
        (GeneratedShoppingItem.quantity genItem)
        (opt_or_default (GeneratedShoppingItem.unit genItem) kom)
        (GeneratedShoppingItem.estimatedPricePerUnit genItem)
        (Number.mul (GeneratedShoppingItem.quantity genItem)
                    (GeneratedShoppingItem.estimatedPricePerUnit genItem))
        false
      :: shoppingItems_from h (S (S n)) rest
  end.

(** The assignment a [catch] clause makes: the workflow's message, then the
    detail of the failure. *)
Definition failure (prefix : string) (error : JsError) : assignment :=
  aiError_set (Some (prefix ++ message_or_unknown error)%string).

(** The guard of [generateOperationalBrief]: nothing to summarise. *)
Definition nothing_to_brief (detailedAnalysis : option string)
  (shoppingItems : list ShoppingItem.t)
  (productSuggestions : list GeneratedProductSuggestion.t) : bool :=
  (falsy detailedAnalysis && (List.length shoppingItems =? 0)%nat
   && (List.length productSuggestions =? 0)%nat)%bool.

(** What [generated.map] makes of one entry, the id apart. *)
Definition mapped (genItem : GeneratedShoppingItem.t) (item : ShoppingItem.t) : Prop :=
  ShoppingItem.name item = GeneratedShoppingItem.name genItem
  /\ ShoppingItem.category item
     = match GeneratedShoppingItem.category genItem with
       | Some c => if (c =? "")%string then Nekategorizirano else c
       | None => Nekategorizirano
       end
  /\ ShoppingItem.quantity item = GeneratedShoppingItem.quantity genItem
  /\ ShoppingItem.unit item
     = match GeneratedShoppingItem.unit genItem with
       | Some u => if (u =? "")%string then kom else u
       | None => kom
       end
  /\ ShoppingItem.pricePerUnit item = GeneratedShoppingItem.estimatedPricePerUnit genItem
  /\ ShoppingItem.totalCost item
     = Number.mul (GeneratedShoppingItem.quantity genItem)
                  (GeneratedShoppingItem.estimatedPricePerUnit genItem)
  /\ ShoppingItem.purchased item = false.

(** The ids of a batch of [count] entries whose first host call is call [n]:
    the clock reading followed by seven characters of the random source. *)
Fixpoint generated_ids (h : Host) (n count : nat) : list string :=
  match count with
  | O => []
  | S k =>
      (toString (Date_now h n) ++ substring 2 7 (Math_random_toString36 h (S n)))%string
      :: generated_ids h (S (S n)) k
  end.

(** [a] may stand before [b]. *)
Definition precedes {A} (compare : A -> A -> Z) (a b : A) : Prop :=
  (compare a b <= 0)%Z.

(** [a] and [b] compare as equal: each may stand before the other. *)
Definition tied {A} (compare : A -> A -> Z) (a b : A) : bool :=
  ((compare a b <=? 0)%Z && (compare b a <=? 0)%Z)%bool.

(** The items filed under [k], in collection order. *)
Definition bucket (k : string) (items : list ShoppingItem.t) : list ShoppingItem.t :=
  filter (fun item => (category_key item =? k)%string) items.

(** [categories] holds, under distinct keys, the non-empty buckets of the
    items seen so far. *)
Definition grouped (items : list ShoppingItem.t) (categories : JsObject (list ShoppingItem.t))
  : Prop :=
  NoDup (Object_keys categories)
  /\ forall k : string,
       own categories k
       = match bucket k items with
         | [] => None
         | group => Some group
         end.

(** No category of the collection names a property of [Object.prototype]. *)
Definition plain_categories (items : list ShoppingItem.t) : Prop :=
  forall item, In item items -> inherited (category_key item) = false.

(** The item bears the id. *)
Definition has_id (id : string) (item : ShoppingItem.t) : bool :=
  (ShoppingItem.id item =? id)%string.

(** Category and unit are set: neither is the empty string. *)
Definition labelled (item : ShoppingItem.t) : Prop :=
  ShoppingItem.category item <> "" /\ ShoppingItem.unit item <> "".

(** The methods of the service a caller can invoke. *)
Inductive call : Type :=
| Operation (op : operation)
| GenerateRenovationMaterials (userPrompt : string)
| GenerateDetailedAnalysis (userPrompt : string)
| GenerateShoppingListSuggestions (shoppingItems : list ShoppingItem.t)
| GenerateOperationalBrief (detailedAnalysis : option string)
    (shoppingItems : list ShoppingItem.t)
    (productSuggestions : list GeneratedProductSuggestion.t).

Definition invoke (c : call) : M unit :=
  match c with
  | Operation op => perform op
  | GenerateRenovationMaterials userPrompt => generateRenovationMaterials userPrompt
  | GenerateDetailedAnalysis userPrompt => generateDetailedAnalysis userPrompt
  | GenerateShoppingListSuggestions shoppingItems =>
      generateShoppingListSuggestions shoppingItems
  | GenerateOperationalBrief detailedAnalysis shoppingItems productSuggestions =>
      generateOperationalBrief detailedAnalysis shoppingItems productSuggestions
  end.

Fixpoint invoke_all (cs : list call) : M unit :=
  match cs with
  | [] => ret tt
  | c :: rest => invoke c ;; invoke_all rest
  end.

(** How [categoryCosts] takes one more item into a category's total: an
    accumulated [0] or [NaN] is dropped for [0] before the cost is added. *)
Definition cost_step (total : number) (item : ShoppingItem.t) : number :=
  Number.add (Number.or_zero total) (ShoppingItem.totalCost item).

(** The total [categoryCosts] reaches over the items of one category. *)
Definition subtotal (items : list ShoppingItem.t) : number :=
  fold_left cost_step items Number.zero.

(** [costsMap] holds, under distinct keys, the subtotals of the non-empty
    buckets of the items seen so far. *)
Definition costed (items : list ShoppingItem.t) (costsMap : list (string * number)) : Prop :=
  NoDup (map fst costsMap)
  /\ forall k : string,
       own costsMap k
       = match bucket k items with
         | [] => None
         | group => Some (subtotal group)
         end.

(** The requests among the effects, in order. *)
Fixpoint requests (history : list effect) : list request :=
  match history with
  | [] => []
  | Requested r :: rest => r :: requests rest
  | _ :: rest => requests rest
  end.

(** What the user can do to the list through the component. *)
Inductive gesture : Type :=
| SubmitForm (form : Form.t)
| RemoveRow (id : string)
| TogglePurchased (item : ShoppingItem.t)
| EditName (item : ShoppingItem.t) (value : string)
| EditCategory (item : ShoppingItem.t) (value : string)
| EditQuantity (item : ShoppingItem.t) (value : string)
| EditUnit (item : ShoppingItem.t) (value : string)
| IncreaseQuantity (item : ShoppingItem.t)
| DecreaseQuantity (item : ShoppingItem.t)
| EditPricePerUnit (item : ShoppingItem.t) (value : string)
| ClearAll (confirmed : bool).

Definition handle (toNumber : string -> number) (g : gesture) : M unit :=
  match g with
  | SubmitForm form => _ <- Planner.addItem form ;; ret tt
  | RemoveRow id => Planner.removeItem id
  | TogglePurchased item => Planner.togglePurchased item
  | EditName item value => Planner.updateName item value
  | EditCategory item value => Planner.updateCategory item value
  | EditQuantity item value => Planner.updateQuantity toNumber item value
  | EditUnit item value => Planner.updateUnit item value
  | IncreaseQuantity item => Planner.increaseQuantity item
  | DecreaseQuantity item => Planner.decreaseQuantity item
  | EditPricePerUnit item value => Planner.updatePricePerUnit toNumber item value
  | ClearAll confirmed => Planner.clearAll confirmed
  end.

Fixpoint handle_all (toNumber : string -> number) (gs : list gesture) : M unit :=
  match gs with
  | [] => ret tt
  | g :: rest => handle toNumber g ;; handle_all toNumber rest
  end.

(** The gestures that edit stored items without adding or removing any. *)
Definition edits (g : gesture) : bool :=
  match g with
  | SubmitForm _ | RemoveRow _ | ClearAll _ => false
  | _ => true
  end.

(** A text is trimmed and not empty. *)
Definition neat (s : string) : Prop := trim s = s /\ s <> "".

(** An item as the component keeps it: name, category and unit trimmed and
    not empty, and [totalCost] agreeing with quantity and price. *)
Definition presentable (item : ShoppingItem.t) : Prop :=
  neat (ShoppingItem.name item)
  /\ neat (ShoppingItem.category item)
  /\ neat (ShoppingItem.unit item)
  /\ consistent item.

(** The products of a map of categories, and of a map of stores, taken
    together. *)
Definition products_of (categoryMap : ProductsByCategory)
  : list GeneratedProductSuggestion.t :=
  List.concat (map snd categoryMap).

Definition all_products (storeMap : list (string * ProductsByCategory))
  : list GeneratedProductSuggestion.t :=
  List.concat (map (fun entry => products_of (snd entry)) storeMap).

(** [storeMap] holds the suggestions seen so far, each once, under its own
    store and category, with no store and no category of a store twice. *)
Definition filed (suggestions : list GeneratedProductSuggestion.t)
  (storeMap : list (string * ProductsByCategory)) : Prop :=
  Permutation (all_products storeMap) suggestions
  /\ NoDup (map fst storeMap)
  /\ forall storeName categoryMap,
       own storeMap storeName = Some categoryMap ->
       NoDup (map fst categoryMap)
       /\ forall categoryName products,
            own categoryMap categoryName = Some products ->
            Forall (fun sug => store_key sug = storeName
                               /\ suggestion_category_key sug = categoryName)
                   products.


(** The item with its [purchased] flag turned over. *)
Definition flipped (item : ShoppingItem.t) : ShoppingItem.t :=
  ShoppingItem.mk (ShoppingItem.id item) (ShoppingItem.name item)
                  (ShoppingItem.category item) (ShoppingItem.quantity item)
                  (ShoppingItem.unit item) (ShoppingItem.pricePerUnit item)
                  (ShoppingItem.totalCost item) (negb (ShoppingItem.purchased item)).

(** A budget the component accepts: a number, and not below zero. *)
Definition valid_budget (b : number) : Prop :=
  isNaN b = false /\ (0 <=? b)%float = true.

(** Fields as the component's handlers send them: texts trimmed and not
    empty, and neither an id nor a [totalCost]. *)
Definition from_component (updates : Partial.t) : Prop :=
  Partial.id updates = None
  /\ Partial.totalCost updates = None
  /\ (forall n, Partial.name updates = Some n -> neat n)
  /\ (forall c, Partial.category updates = Some c -> neat c)
  /\ (forall u, Partial.unit updates = Some u -> neat u).

(* ===================================================================== *)
(** ** Hosts and inputs to evaluate on *)

Definition byte_order (a b : string) : Z :=
  match String.compare a b with
  | Lt => (-1)%Z
  | Eq => 0%Z
  | Gt => 1%Z
  end.

(** A host whose model is unreachable: every request is refused. *)
Definition offline : Host :=
  mkHost (fun n => (1700000000000 + Z.of_nat n)%Z)
         (fun _ => "0.k3j9x2m4p")
         (fun _ _ => Threw (mkError (Some "Failed to fetch")))
         (fun _ => Threw (mkError (Some "Unexpected end of JSON input")))
         (fun _ => Threw (mkError (Some "Unexpected end of JSON input")))
         byte_order.

Definition tile : Draft.t := Draft.mk "Tile" "Flooring" 10%float "m2" 12%float false.

Definition stored_tile : ShoppingItem.t :=
  ShoppingItem.mk "1700000000000" "Tile" "Flooring" 10%float "m2" 12%float 120%float false.

Definition quantity_only (q : number) : Partial.t :=
  Partial.mk None None None (Some q) None None None None.

Definition totalCost_only (c : number) : Partial.t :=
  Partial.mk None None None None None None (Some c) None.

Definition id_only (i : string) : Partial.t :=
  Partial.mk (Some i) None None None None None None None.

(** A host whose model answers with something that is not JSON. *)
Definition garbled : Host :=
  mkHost (Date_now offline) (Math_random_toString36 offline)
         (fun _ _ => Returned "<html>Service Unavailable</html>")
         (fun _ => Threw (mkError (Some "Unexpected token < in JSON at position 0")))
         (fun _ => Threw (mkError (Some "Unexpected token < in JSON at position 0")))
         byte_order.

(** A session that holds the tile. *)
Definition tiled : World := fresh (assign (itemsSignal_set [stored_tile]) initial).

Definition paint : GeneratedShoppingItem.t :=
  GeneratedShoppingItem.mk "Paint" (Some "") 5%float (Some "") 20%float.

(** A host whose model answers, and whose [JSON.parse] reads the answer as
    the one-entry array of the specification's example. *)
Definition painter : Host :=
  mkHost (Date_now offline) (Math_random_toString36 offline)
         (fun _ _ => Returned "  [ paint ]  ")
         (fun jsonStr =>
            if (jsonStr =? "[ paint ]")%string then Returned (JsArray [paint])
            else Threw (mkError (Some "Unexpected token")))
         (fun _ => Returned [])
         byte_order.

Definition hammer : GeneratedProductSuggestion.t :=
  GeneratedProductSuggestion.mk "Hammer" 9%float "https://shop.example/hammer" "Tools"
                                "Shop" "Hammer".

(** A session whose description box holds spaces only, and no items. *)
Definition spaces : World := fresh (assign (aiPrompt_set "   ") initial).

Definition door : Draft.t := Draft.mk "Door" "constructor" 1%float "kom" 250%float false.

(** A host whose clock stands still. *)
Definition frozen : Host :=
  mkHost (fun _ => 1700000000000%Z) (Math_random_toString36 offline)
         (generateContent offline) (JSON_parse_materials offline)
         (JSON_parse_suggestions offline) byte_order.

Definition nail (product category storeName : string) : GeneratedProductSuggestion.t :=
  GeneratedProductSuggestion.mk product 1%float "https://shop.example" category storeName
                                "Nails".

(** A reading of texts as numbers to evaluate on: ["3"] is 3, anything else
    is not a number. *)
Definition reads_three (value : string) : number :=
  if (value =? "3")%string then 3%float else nan.

(* ===================================================================== *)
(** ** The item store: what the methods do to the collection *)

Lemma assign_same_items (s : Store) : assign (itemsSignal_set (itemsSignal s)) s = s.
Proof. destruct s; reflexivity. Qed.

Lemma run_bind {A B} (h : Host) (w : World) (c : M A) (k : A -> M B) :
  run h w (bind c k) = run h (snd (c h w)) (k (fst (c h w))).
Proof. unfold run, bind. destruct (c h w); reflexivity. Qed.

Lemma run_then {B} (h : Host) (w : World) (c : M unit) (k : M B) :
  run h w (c ;; k) = run h (run h w c) k.
Proof. unfold run, bind. destruct (c h w) as [[] w']; reflexivity. Qed.

Lemma allItems_addItem (h : Host) (w : World) (item : Draft.t) :
  allItems (store (run h w (addItem item))) =
  allItems (store w) ++
  [ShoppingItem.mk (toString (Date_now h (calls w))) (Draft.name item)
     (or_default (Draft.category item) Nekategorizirano) (Draft.quantity item)
     (or_default (Draft.unit item) kom) (Draft.pricePerUnit item)
     (Number.mul (Draft.quantity item) (Draft.pricePerUnit item))
     (Draft.purchased item)].
Proof. reflexivity. Qed.

Lemma allItems_updateItem (h : Host) (w : World) (id : string) (updates : Partial.t) :
  allItems (store (run h w (updateItem id updates))) =
  map (updated id updates) (allItems (store w)).
Proof. reflexivity. Qed.

Lemma allItems_removeItem (h : Host) (w : World) (id : string) :
  allItems (store (run h w (removeItem id))) =
  filter (fun item => negb (ShoppingItem.id item =? id)%string) (allItems (store w)).
Proof. reflexivity. Qed.

Lemma allItems_clearAllItems (h : Host) (w : World) :
  allItems (store (run h w clearAllItems)) = [].
Proof. reflexivity. Qed.

Lemma updated_other (id : string) (updates : Partial.t) (item : ShoppingItem.t) :
  ShoppingItem.id item <> id -> updated id updates item = item.
Proof.
  intros Hne. unfold updated.
  destruct (String.eqb_spec (ShoppingItem.id item) id) as [Heq | _];
    [contradiction | reflexivity].
Qed.

Lemma map_updated_absent (id : string) (updates : Partial.t) (items : list ShoppingItem.t) :
  (forall item, In item items -> ShoppingItem.id item <> id) ->
  map (updated id updates) items = items.
Proof.
  induction items as [| item rest IH]; intros Habsent; simpl.
  - reflexivity.
  - rewrite updated_other by (apply Habsent; left; reflexivity).
    rewrite IH; [reflexivity |].
    intros other Hin. apply Habsent. right. exact Hin.
Qed.

(** C1: for every draft, [addItem] runs to completion and appends exactly one
    item after the stored ones, which stay as they were; the new item's
    [totalCost] is [quantity * pricePerUnit] of the draft, its category is
    ["Nekategorizirano"] when the draft's category is blank (the empty string)
    and its unit is ["kom"] when the draft's unit is blank; the other fields
    are the draft's, and the id is the clock reading. *)
Theorem addItem_appends_one_item (h : Host) (w : World) (item : Draft.t) :
  exists newItem : ShoppingItem.t,
    allItems (store (run h w (addItem item))) = allItems (store w) ++ [newItem]
    /\ ShoppingItem.totalCost newItem
       = Number.mul (Draft.quantity item) (Draft.pricePerUnit item)
    /\ ShoppingItem.category newItem
       = (if (Draft.category item =? "")%string then Nekategorizirano
          else Draft.category item)
    /\ ShoppingItem.unit newItem
       = (if (Draft.unit item =? "")%string then kom else Draft.unit item)
    /\ ShoppingItem.id newItem = toString (Date_now h (calls w))
    /\ ShoppingItem.name newItem = Draft.name item
    /\ ShoppingItem.quantity newItem = Draft.quantity item
    /\ ShoppingItem.pricePerUnit newItem = Draft.pricePerUnit item
    /\ ShoppingItem.purchased newItem = Draft.purchased item.
Proof.
  eexists. split; [apply allItems_addItem |].
  cbn. unfold or_default. repeat split.
Qed.

(** The example of the specification: ten square metres of tile at 12. *)
Example addItem_tile :
  allItems (store (run offline (fresh initial) (addItem tile))) = [stored_tile].
Proof. reflexivity. Qed.

(** A category of white space only is not empty: [addItem] stores it as it
    is, and [categorizedItems] files the item under the default group. *)
Example addItem_space_category :
  map ShoppingItem.category
      (allItems (store (run offline (fresh initial)
                            (addItem (Draft.mk "Tile" " " 10%float "m2" 12%float false)))))
  = [" "].
Proof. reflexivity. Qed.

(** C2: [updateItem(id, {quantity: q})] turns every stored item with that id
    into the same item with quantity [q] and [totalCost] [q * pricePerUnit],
    in place; for an id no stored item has, [updateItem] with any fields
    leaves every signal, the collection and the error slot among them, as it
    was, and its only effect is to store the same collection again. *)
Theorem updateItem_quantity_recomputes_totalCost (h : Host) (w : World) (id : string) :
  (forall (q : number) (i : nat) (item : ShoppingItem.t),
      nth_error (allItems (store w)) i = Some item ->
      ShoppingItem.id item = id ->
      nth_error (allItems (store (run h w (updateItem id (quantity_only q))))) i
      = Some (ShoppingItem.mk id (ShoppingItem.name item) (ShoppingItem.category item)
                q (ShoppingItem.unit item) (ShoppingItem.pricePerUnit item)
                (Number.mul q (ShoppingItem.pricePerUnit item))
                (ShoppingItem.purchased item)))
  /\
  (forall updates : Partial.t,
      (forall item, In item (allItems (store w)) -> ShoppingItem.id item <> id) ->
      store (run h w (updateItem id updates)) = store w
      /\ effects (run h w (updateItem id updates))
         = effects w ++ [Assigned (itemsSignal_set (allItems (store w)))]).
Proof.
  split.
  - intros q i item Hnth Hid.
    rewrite allItems_updateItem, nth_error_map, Hnth. cbn.
    subst id. unfold updated. rewrite String.eqb_refl. reflexivity.
  - intros updates Habsent.
    pose proof (map_updated_absent id updates _ Habsent) as Hmap.
    unfold allItems in Hmap. unfold run, updateItem, itemsSignal_update, bind, read, set.
    cbn. unfold allItems. rewrite Hmap. split; [apply assign_same_items | reflexivity].
Qed.

Lemma updateItem_quantity_recomputes_totalCost_witness :
  nth_error (allItems (store (run offline (fresh (assign (itemsSignal_set [stored_tile]) initial))
                                  (updateItem "1700000000000" (quantity_only 3%float))))) 0
  = Some (ShoppingItem.mk "1700000000000" "Tile" "Flooring" 3%float "m2" 12%float 36%float false)
  /\ store (run offline (fresh (assign (itemsSignal_set [stored_tile]) initial))
                (updateItem "42" (totalCost_only 1%float)))
     = assign (itemsSignal_set [stored_tile]) initial.
Proof.
  split.
  - apply (proj1 (updateItem_quantity_recomputes_totalCost offline
                    (fresh (assign (itemsSignal_set [stored_tile]) initial))
                    "1700000000000") 3%float 0%nat stored_tile); reflexivity.
  - apply (proj2 (updateItem_quantity_recomputes_totalCost offline
                    (fresh (assign (itemsSignal_set [stored_tile]) initial)) "42")
                 (totalCost_only 1%float)).
    intros item [Heq | []]. subst item. discriminate.
Defined.

(* ===================================================================== *)
(** ** Identity and cost consistency under the store's methods *)

Lemma updated_keeps_id (id : string) (updates : Partial.t) (item : ShoppingItem.t) :
  Partial.id updates = None ->
  ShoppingItem.id (updated id updates item) = ShoppingItem.id item.
Proof.
  intros Hnone. unfold updated.
  destruct (ShoppingItem.id item =? id)%string; [| reflexivity].
  cbn. rewrite Hnone. reflexivity.
Qed.

(** As long as the fields handed to [updateItem] carry no [id], the ids of
    the stored items stay what they were, position by position. *)
Lemma updateItem_keeps_ids (h : Host) (w : World) (id : string) (updates : Partial.t) :
  Partial.id updates = None ->
  map ShoppingItem.id (allItems (store (run h w (updateItem id updates))))
  = map ShoppingItem.id (allItems (store w)).
Proof.
  intros Hnone. rewrite allItems_updateItem, map_map.
  apply map_ext. intros item. apply updated_keeps_id. exact Hnone.
Qed.

Lemma updated_consistent (id : string) (updates : Partial.t) (item : ShoppingItem.t) :
  Partial.totalCost updates = None ->
  consistent item -> consistent (updated id updates item).
Proof.
  unfold consistent, updated. intros Hnone Hitem.
  destruct (ShoppingItem.id item =? id)%string; [| exact Hitem].
  destruct updates as [uid uname ucat [q |] uunit [p |] ucost upurchased];
    cbn in *; subst ucost; cbn; first [reflexivity | exact Hitem].
Qed.

Lemma perform_consistent (h : Host) (w : World) (op : operation) :
  leaves_totalCost_out op ->
  Forall consistent (allItems (store w)) ->
  Forall consistent (allItems (store (run h w (perform op)))).
Proof.
  intros Hop Hall. destruct op as [item | id updates | id |]; cbn [perform].
  - rewrite allItems_addItem. apply Forall_app. split; [exact Hall |].
    constructor; [reflexivity | constructor].
  - rewrite allItems_updateItem. apply Forall_map.
    revert Hall. apply Forall_impl. intros item. apply updated_consistent. exact Hop.
  - rewrite allItems_removeItem. rewrite Forall_forall in *.
    intros item Hin. apply filter_In in Hin. apply Hall. apply Hin.
  - rewrite allItems_clearAllItems. constructor.
Qed.

(** Short of an [updateItem] that names [totalCost] itself, the store's
    methods keep every item's [totalCost] at [quantity * pricePerUnit]. *)
Lemma perform_all_consistent (h : Host) (ops : list operation) :
  Forall leaves_totalCost_out ops ->
  forall w : World,
    Forall consistent (allItems (store w)) ->
    Forall consistent (allItems (store (run h w (perform_all ops)))).
Proof.
  induction 1 as [| op rest Hop _ IH]; intros w Hall; cbn [perform_all].
  - exact Hall.
  - rewrite run_then. apply IH. apply perform_consistent; assumption.
Qed.

(** C3, at the input where it fails: after [addItem] of the tile (10 at 12),
    [updateItem(id, {totalCost: 5})] stores a [totalCost] of 5 beside a
    quantity and a price whose product is 120. *)
Theorem updateItem_sets_totalCost_alone :
  exists item : ShoppingItem.t,
    allItems (store (run offline (fresh initial)
                         (perform_all [Add tile;
                                       Update "1700000000000" (totalCost_only 5%float)])))
    = [item]
    /\ ShoppingItem.totalCost item = 5%float
    /\ Number.mul (ShoppingItem.quantity item) (ShoppingItem.pricePerUnit item) = 120%float
    /\ ~ consistent item.
Proof.
  eexists. split; [reflexivity |]. split; [reflexivity |]. split; [reflexivity |].
  unfold consistent. intros Heq.
  apply (f_equal (PrimFloat.eqb 5%float)) in Heq.
  vm_compute in Heq. discriminate Heq.
Qed.

(** C9, at the input where it fails: [updateItem(id, {id: "2"})] gives the
    stored tile another id. *)
Theorem updateItem_overwrites_id :
  map ShoppingItem.id
      (allItems (store (run offline (fresh initial) (perform_all [Add tile]))))
  = ["1700000000000"]
  /\ map ShoppingItem.id
         (allItems (store (run offline (fresh initial)
                               (perform_all [Add tile;
                                             Update "1700000000000" (id_only "2")]))))
     = ["2"].
Proof. split; reflexivity. Qed.

(* ===================================================================== *)
(** ** The budget views *)

Lemma fold_left_totalCost (items : list ShoppingItem.t) (acc : number) :
  fold_left (fun sum item => Number.add sum (ShoppingItem.totalCost item)) items acc
  = sum_from acc (map ShoppingItem.totalCost items).
Proof.
  revert acc. induction items as [| item rest IH]; intros acc; simpl.
  - reflexivity.
  - apply IH.
Qed.

Lemma userBudget_perform (h : Host) (w : World) (op : operation) :
  userBudget (store (run h w (perform op))) = userBudget (store w).
Proof. destruct op; reflexivity. Qed.

Lemma userBudget_perform_all (h : Host) (ops : list operation) :
  forall w : World,
    userBudget (store (run h w (perform_all ops))) = userBudget (store w).
Proof.
  induction ops as [| op rest IH]; intros w; cbn [perform_all].
  - reflexivity.
  - rewrite run_then, IH. apply userBudget_perform.
Qed.

(** C8: after any sequence of add, update, remove and clear, from any state,
    [totalBudget()] is the sum of [totalCost] over [allItems()], and
    [budgetDifference()] is the budget the user set, which the sequence has
    not touched, minus [totalBudget()]. *)
Theorem totalBudget_is_sum_of_totalCost (h : Host) (w : World) (ops : list operation) :
  totalBudget (store (run h w (perform_all ops)))
  = sum (map ShoppingItem.totalCost (allItems (store (run h w (perform_all ops)))))
  /\ budgetDifference (store (run h w (perform_all ops)))
     = Number.sub (userBudget (store (run h w (perform_all ops))))
                  (totalBudget (store (run h w (perform_all ops))))
  /\ userBudget (store (run h w (perform_all ops))) = userBudget (store w).
Proof.
  split; [| split].
  - unfold totalBudget, sum, allItems. apply fold_left_totalCost.
  - reflexivity.
  - apply userBudget_perform_all.
Qed.

Lemma sum_from_snoc (l : list number) (x : number) :
  forall acc : number, sum_from acc (l ++ [x]) = Number.add (sum_from acc l) x.
Proof.
  induction l as [| y r IH]; intros acc; cbn [app sum_from].
  - reflexivity.
  - apply IH.
Qed.

(** Adding an item adds its cost to the total; clearing brings it to zero. *)
Lemma totalBudget_addItem (h : Host) (w : World) (item : Draft.t) :
  totalBudget (store (run h w (addItem item)))
  = Number.add (totalBudget (store w))
               (Number.mul (Draft.quantity item) (Draft.pricePerUnit item)).
Proof.
  unfold totalBudget. rewrite !fold_left_totalCost.
  change (itemsSignal (store (run h w (addItem item))))
    with (allItems (store (run h w (addItem item)))).
  rewrite allItems_addItem, map_app. apply sum_from_snoc.
Qed.

Lemma totalBudget_clearAllItems (h : Host) (w : World) :
  totalBudget (store (run h w clearAllItems)) = Number.zero.
Proof. reflexivity. Qed.

(** Two tiles and a tin of paint, the tiles removed again: 40 is left. *)
Example totalBudget_after_operations :
  totalBudget
    (store (run offline (fresh initial)
                (perform_all [Add tile;
                              Add (Draft.mk "Paint" "" 2%float "" 20%float false);
                              Update "1700000000000" (quantity_only 20%float);
                              Remove "1700000000000"])))
  = 40%float.
Proof. reflexivity. Qed.

(* ===================================================================== *)
(** ** The workflows: effects in order *)

Ltac reduce_world := cbn [fst snd store effects calls].

Ltac unfold_method :=
  unfold run, try_catch_finally, Array_map, and_then, normally,
    await_generateContent, JSON_parse_as_materials, JSON_parse_as_suggestions,
    itemsSignal_update, console_error, set, read, bind, ret;
  reduce_world.

Ltac flatten_effects := repeat rewrite <- app_assoc; cbn [app].

Lemma generateShoppingListSuggestions_opens (h : Host) (w : World)
  (shoppingItems : list ShoppingItem.t) :
  exists rest : list effect,
    effects (run h w (generateShoppingListSuggestions shoppingItems))
    = effects w ++ suggestions_opening ++ rest
    /\ store (run h w (generateShoppingListSuggestions shoppingItems))
       = replay rest (replay suggestions_opening (store w)).
Proof.
  unfold generateShoppingListSuggestions.
  destruct shoppingItems as [| item rest]; cbn [List.length Nat.eqb].
  - exists suggestions_rejection. unfold_method. flatten_effects. split; reflexivity.
  - unfold_method.
    destruct (generateContent h (calls w) _) as [error | text]; reduce_world.
    + eexists. flatten_effects. split; reflexivity.
    + destruct (JSON_parse_suggestions h (trim text)) as [error | generated];
        reduce_world; eexists; flatten_effects; split; reflexivity.
Qed.

Lemma mapM_toShoppingItem (h : Host) (entries : list GeneratedShoppingItem.t) :
  forall w : World,
    mapM toShoppingItem entries h w
    = (shoppingItems_from h (calls w) entries,
       mkWorld (store w) (effects w) (2 * List.length entries + calls w)).
Proof.
  induction entries as [| genItem rest IH]; intros w.
  - destruct w; reflexivity.
  - cbn [mapM shoppingItems_from List.length].
    unfold bind at 1. unfold toShoppingItem at 1.
    unfold bind, now, random36, host_call, ret. reduce_world.
    fold (@bind (list ShoppingItem.t) (list ShoppingItem.t)).
    unfold bind. rewrite IH. reduce_world.
    f_equal. f_equal. lia.
Qed.

Lemma generateRenovationMaterials_fails (h : Host) (w : World) (userPrompt : string)
  (error : JsError) :
  materials_reply h (calls w) userPrompt = Threw error ->
  store (run h w (generateRenovationMaterials userPrompt))
  = assign (isGenerating_set false)
      (assign (failure materials_error_prefix error)
         (assign (aiError_set None) (assign (isGenerating_set true) (store w)))).
Proof.
  unfold materials_reply, generateRenovationMaterials. unfold_method.
  destruct (generateContent h (calls w) _) as [e | text]; reduce_world.
  - intros [= ->]. reflexivity.
  - destruct (JSON_parse_materials h (trim text)) as [e | [e | entries]]; reduce_world.
    + intros [= ->]. reflexivity.
    + intros [= ->]. reflexivity.
    + discriminate.
Qed.

(** A failed run as an observer sees it: the request is the only thing that
    happens between the opening and the [catch] clause, and nothing is
    assigned to the collection. *)
Lemma generateRenovationMaterials_fails_effects (h : Host) (w : World)
  (userPrompt : string) (error : JsError) :
  materials_reply h (calls w) userPrompt = Threw error ->
  effects (run h w (generateRenovationMaterials userPrompt))
  = effects w ++
    [ Assigned (isGenerating_set true);
      Assigned (aiError_set None);
      Requested (MaterialsRequest userPrompt);
      ConsoleError "Error generating renovation materials:" error;
      Assigned (failure materials_error_prefix error);
      Assigned (isGenerating_set false) ].
Proof.
  unfold materials_reply, generateRenovationMaterials. unfold_method.
  destruct (generateContent h (calls w) _) as [e | text]; reduce_world.
  - intros [= ->]. flatten_effects. reflexivity.
  - destruct (JSON_parse_materials h (trim text)) as [e | [e | entries]]; reduce_world;
      [intros [= ->]; flatten_effects; reflexivity ..| discriminate].
Qed.

Lemma generateRenovationMaterials_succeeds (h : Host) (w : World) (userPrompt : string)
  (entries : list GeneratedShoppingItem.t) :
  materials_reply h (calls w) userPrompt = Returned entries ->
  store (run h w (generateRenovationMaterials userPrompt))
  = assign (isGenerating_set false)
      (assign (itemsSignal_set
                 (itemsSignal (store w) ++ shoppingItems_from h (S (calls w)) entries))
         (assign (aiError_set None) (assign (isGenerating_set true) (store w)))).
Proof.
  unfold materials_reply, generateRenovationMaterials. unfold_method.
  destruct (generateContent h (calls w) _) as [e | text]; reduce_world.
  - discriminate.
  - destruct (JSON_parse_materials h (trim text)) as [e | [e | generated]]; reduce_world.
    + discriminate.
    + discriminate.
    + intros [= ->]. rewrite mapM_toShoppingItem. reduce_world. reflexivity.
Qed.

Lemma generateRenovationMaterials_clears_flag (h : Host) (w : World) (userPrompt : string) :
  isGenerating (store (run h w (generateRenovationMaterials userPrompt))) = false.
Proof.
  destruct (materials_reply h (calls w) userPrompt) as [error | entries] eqn:Hreply.
  - rewrite (generateRenovationMaterials_fails _ _ _ _ Hreply). reflexivity.
  - rewrite (generateRenovationMaterials_succeeds _ _ _ _ Hreply). reflexivity.
Qed.

Lemma generateDetailedAnalysis_store (h : Host) (w : World) (userPrompt : string) :
  store (run h w (generateDetailedAnalysis userPrompt))
  = assign (isGeneratingDetailedAnalysis_set false)
      (assign
         match generateContent h (calls w) (DetailedAnalysisRequest userPrompt) with
         | Threw error => failure analysis_error_prefix error
         | Returned text => detailedAnalysisResult_set (Some (trim text))
         end
         (assign (detailedAnalysisResult_set None)
            (assign (aiError_set None)
               (assign (isGeneratingDetailedAnalysis_set true) (store w))))).
Proof.
  unfold generateDetailedAnalysis. unfold_method.
  destruct (generateContent h (calls w) _) as [e | text]; reflexivity.
Qed.

Lemma generateShoppingListSuggestions_store (h : Host) (w : World)
  (shoppingItems : list ShoppingItem.t) :
  shoppingItems <> [] ->
  store (run h w (generateShoppingListSuggestions shoppingItems))
  = assign (isGeneratingShoppingList_set false)
      (assign
         match suggestions_reply h (calls w) shoppingItems with
         | Threw error => failure suggestions_error_prefix error
         | Returned generated => shoppingListSuggestions_set generated
         end
         (assign (shoppingListSuggestions_set [])
            (assign (aiError_set None)
               (assign (isGeneratingShoppingList_set true) (store w))))).
Proof.
  intros Hitems. unfold suggestions_reply, generateShoppingListSuggestions.
  destruct shoppingItems as [| item rest]; [contradiction |].
  cbn [List.length Nat.eqb]. unfold_method.
  destruct (generateContent h (calls w) _) as [e | text]; reduce_world.
  - reflexivity.
  - destruct (JSON_parse_suggestions h (trim text)) as [e | generated]; reflexivity.
Qed.

Lemma generateShoppingListSuggestions_empty (h : Host) (w : World) :
  run h w (generateShoppingListSuggestions [])
  = mkWorld (replay (suggestions_opening ++ suggestions_rejection) (store w))
            (effects w ++ suggestions_opening ++ suggestions_rejection)
            (calls w).
Proof.
  unfold generateShoppingListSuggestions. cbn [List.length Nat.eqb].
  unfold_method. flatten_effects. reflexivity.
Qed.

Lemma generateShoppingListSuggestions_clears_flag (h : Host) (w : World)
  (shoppingItems : list ShoppingItem.t) :
  isGeneratingShoppingList (store (run h w (generateShoppingListSuggestions shoppingItems)))
  = false.
Proof.
  destruct shoppingItems as [| item rest].
  - rewrite generateShoppingListSuggestions_empty. reflexivity.
  - rewrite generateShoppingListSuggestions_store by discriminate. reflexivity.
Qed.

Lemma generateOperationalBrief_store (h : Host) (w : World)
  (detailedAnalysis : option string) (shoppingItems : list ShoppingItem.t)
  (productSuggestions : list GeneratedProductSuggestion.t) :
  store (run h w (generateOperationalBrief detailedAnalysis shoppingItems productSuggestions))
  = assign (isGeneratingOperationalBrief_set false)
      (assign
         (if nothing_to_brief detailedAnalysis shoppingItems productSuggestions
          then aiError_set (Some no_data_error)
          else
            match generateContent h (calls w)
                    (OperationalBriefRequest detailedAnalysis shoppingItems
                                             productSuggestions) with
            | Threw error => failure brief_error_prefix error
            | Returned text => operationalBriefResult_set (Some (trim text))
            end)
         (assign (operationalBriefResult_set None)
            (assign (aiError_set None)
               (assign (isGeneratingOperationalBrief_set true) (store w))))).
Proof.
  unfold generateOperationalBrief, nothing_to_brief.
  destruct (falsy detailedAnalysis && (List.length shoppingItems =? 0)%nat
            && (List.length productSuggestions =? 0)%nat)%bool.
  - reflexivity.
  - unfold_method.
    destruct (generateContent h (calls w) _) as [e | text]; reflexivity.
Qed.

Lemma message_or_unknown_detail (detail : string) :
  detail <> "" -> message_or_unknown (mkError (Some detail)) = detail.
Proof.
  intros Hne. unfold message_or_unknown, opt_or_default, or_default. cbn [message].
  destruct (String.eqb_spec detail "") as [Heq | _]; [contradiction | reflexivity].
Qed.

(** C5: when the request, [JSON.parse] or the array check fails in a
    workflow, the error slot holds that workflow's message followed by the
    failure's own message (by ["Nepoznata greška."] when it has none), the
    workflow's pending flag is false, as it is after every run, successful or
    not, and a failed material generation leaves the collection as it was; a
    failed suggestion run leaves the suggestions empty and the collection as
    it was. *)
Theorem workflows_handle_failure (h : Host) (w : World) :
  (forall (userPrompt : string) (error : JsError),
      materials_reply h (calls w) userPrompt = Threw error ->
      aiError (store (run h w (generateRenovationMaterials userPrompt)))
      = Some (materials_error_prefix ++ message_or_unknown error)%string
      /\ isGenerating (store (run h w (generateRenovationMaterials userPrompt))) = false
      /\ allItems (store (run h w (generateRenovationMaterials userPrompt)))
         = allItems (store w))
  /\ (forall (userPrompt : string) (error : JsError),
      generateContent h (calls w) (DetailedAnalysisRequest userPrompt) = Threw error ->
      aiError (store (run h w (generateDetailedAnalysis userPrompt)))
      = Some (analysis_error_prefix ++ message_or_unknown error)%string
      /\ isGeneratingDetailedAnalysis (store (run h w (generateDetailedAnalysis userPrompt)))
         = false)
  /\ (forall (shoppingItems : list ShoppingItem.t) (error : JsError),
      shoppingItems <> [] ->
      suggestions_reply h (calls w) shoppingItems = Threw error ->
      aiError (store (run h w (generateShoppingListSuggestions shoppingItems)))
      = Some (suggestions_error_prefix ++ message_or_unknown error)%string
      /\ isGeneratingShoppingList
           (store (run h w (generateShoppingListSuggestions shoppingItems))) = false
      /\ shoppingListSuggestions
           (store (run h w (generateShoppingListSuggestions shoppingItems))) = []
      /\ allItems (store (run h w (generateShoppingListSuggestions shoppingItems)))
         = allItems (store w))
  /\ (forall (detailedAnalysis : option string) (shoppingItems : list ShoppingItem.t)
             (productSuggestions : list GeneratedProductSuggestion.t) (error : JsError),
      nothing_to_brief detailedAnalysis shoppingItems productSuggestions = false ->
      generateContent h (calls w)
        (OperationalBriefRequest detailedAnalysis shoppingItems productSuggestions)
      = Threw error ->
      aiError (store (run h w (generateOperationalBrief detailedAnalysis shoppingItems
                                                        productSuggestions)))
      = Some (brief_error_prefix ++ message_or_unknown error)%string
      /\ isGeneratingOperationalBrief
           (store (run h w (generateOperationalBrief detailedAnalysis shoppingItems
                                                     productSuggestions))) = false)
  /\ (forall userPrompt : string,
      isGenerating (store (run h w (generateRenovationMaterials userPrompt))) = false)
  /\ (forall userPrompt : string,
      isGeneratingDetailedAnalysis (store (run h w (generateDetailedAnalysis userPrompt)))
      = false)
  /\ (forall shoppingItems : list ShoppingItem.t,
      isGeneratingShoppingList
        (store (run h w (generateShoppingListSuggestions shoppingItems))) = false)
  /\ (forall (detailedAnalysis : option string) (shoppingItems : list ShoppingItem.t)
             (productSuggestions : list GeneratedProductSuggestion.t),
      isGeneratingOperationalBrief
        (store (run h w (generateOperationalBrief detailedAnalysis shoppingItems
                                                  productSuggestions))) = false)
  /\ (forall detail : string,
      detail <> "" -> message_or_unknown (mkError (Some detail)) = detail).
Proof.
  repeat apply conj.
  - intros userPrompt error Hreply.
    rewrite (generateRenovationMaterials_fails _ _ _ _ Hreply). repeat split.
  - intros userPrompt error Hreply.
    rewrite generateDetailedAnalysis_store, Hreply. repeat split.
  - intros shoppingItems error Hitems Hreply.
    rewrite (generateShoppingListSuggestions_store _ _ _ Hitems), Hreply. repeat split.
  - intros detailedAnalysis shoppingItems productSuggestions error Hguard Hreply.
    rewrite generateOperationalBrief_store, Hguard, Hreply. repeat split.
  - apply generateRenovationMaterials_clears_flag.
  - intros userPrompt. rewrite generateDetailedAnalysis_store. reflexivity.
  - apply generateShoppingListSuggestions_clears_flag.
  - intros. rewrite generateOperationalBrief_store. reflexivity.
  - apply message_or_unknown_detail.
Qed.

Lemma workflows_handle_failure_witness :
  (aiError (store (run garbled tiled (generateRenovationMaterials "stan 60 m2")))
   = Some (materials_error_prefix ++ "Unexpected token < in JSON at position 0")%string
   /\ isGenerating (store (run garbled tiled (generateRenovationMaterials "stan 60 m2")))
      = false
   /\ allItems (store (run garbled tiled (generateRenovationMaterials "stan 60 m2")))
      = [stored_tile])
  /\ (aiError (store (run offline tiled (generateDetailedAnalysis "stan 60 m2")))
      = Some (analysis_error_prefix ++ "Failed to fetch")%string
      /\ isGeneratingDetailedAnalysis
           (store (run offline tiled (generateDetailedAnalysis "stan 60 m2"))) = false)
  /\ (aiError (store (run garbled tiled (generateShoppingListSuggestions [stored_tile])))
      = Some (suggestions_error_prefix ++ "Unexpected token < in JSON at position 0")%string
      /\ isGeneratingShoppingList
           (store (run garbled tiled (generateShoppingListSuggestions [stored_tile]))) = false
      /\ shoppingListSuggestions
           (store (run garbled tiled (generateShoppingListSuggestions [stored_tile]))) = []
      /\ allItems (store (run garbled tiled (generateShoppingListSuggestions [stored_tile])))
         = [stored_tile])
  /\ (aiError (store (run offline tiled (generateOperationalBrief None [stored_tile] [])))
      = Some (brief_error_prefix ++ "Failed to fetch")%string
      /\ isGeneratingOperationalBrief
           (store (run offline tiled (generateOperationalBrief None [stored_tile] [])))
         = false)
  /\ message_or_unknown (mkError (Some "Failed to fetch")) = "Failed to fetch".
Proof.
  destruct (workflows_handle_failure garbled tiled) as (Hmaterials & _ & Hsuggestions & _).
  destruct (workflows_handle_failure offline tiled)
    as (_ & Hanalysis & _ & Hbrief & _ & _ & _ & _ & Hdetail).
  split; [| split; [| split; [| split]]].
  - apply (Hmaterials "stan 60 m2"
             (mkError (Some "Unexpected token < in JSON at position 0"))).
    reflexivity.
  - apply (Hanalysis "stan 60 m2" (mkError (Some "Failed to fetch"))). reflexivity.
  - apply (Hsuggestions [stored_tile]
             (mkError (Some "Unexpected token < in JSON at position 0"))).
    + discriminate.
    + reflexivity.
  - apply (Hbrief None [stored_tile] [] (mkError (Some "Failed to fetch"))); reflexivity.
  - apply Hdetail. discriminate.
Defined.

(* ===================================================================== *)
(** ** Material generation: the appended batch *)

Lemma shoppingItems_from_mapped (h : Host) (entries : list GeneratedShoppingItem.t) :
  forall n : nat, Forall2 mapped entries (shoppingItems_from h n entries).
Proof.
  induction entries as [| genItem rest IH]; intros n; cbn [shoppingItems_from].
  - constructor.
  - constructor; [| apply IH].
    unfold mapped, opt_or_default, or_default. cbn. repeat split.
Qed.

Lemma shoppingItems_from_ids (h : Host) (entries : list GeneratedShoppingItem.t) :
  forall n : nat,
    map ShoppingItem.id (shoppingItems_from h n entries)
    = generated_ids h n (List.length entries).
Proof.
  induction entries as [| genItem rest IH]; intros n; cbn.
  - reflexivity.
  - rewrite IH. reflexivity.
Qed.

(** C7: when the reply parses to an array of entries, the collection after
    [generateRenovationMaterials] is the collection before followed by one
    item per entry, in order: each with the entry's name, quantity and price,
    [totalCost = quantity * estimatedPricePerUnit], category
    ["Nekategorizirano"] and unit ["kom"] where the entry's is missing or
    blank (the empty string), not purchased, and an id made on the spot from
    the clock and the random source. *)
Theorem generateRenovationMaterials_appends_batch (h : Host) (w : World)
  (userPrompt : string) (entries : list GeneratedShoppingItem.t) :
  materials_reply h (calls w) userPrompt = Returned entries ->
  exists itemsToAdd : list ShoppingItem.t,
    allItems (store (run h w (generateRenovationMaterials userPrompt)))
    = allItems (store w) ++ itemsToAdd
    /\ Forall2 mapped entries itemsToAdd
    /\ map ShoppingItem.id itemsToAdd
       = generated_ids h (S (calls w)) (List.length entries)
    /\ aiError (store (run h w (generateRenovationMaterials userPrompt))) = None.
Proof.
  intros Hreply. exists (shoppingItems_from h (S (calls w)) entries).
  rewrite (generateRenovationMaterials_succeeds _ _ _ _ Hreply).
  split; [reflexivity |]. split; [apply shoppingItems_from_mapped |].
  split; [apply shoppingItems_from_ids | reflexivity].
Qed.

Lemma generateRenovationMaterials_appends_batch_witness :
  exists itemsToAdd : list ShoppingItem.t,
    allItems (store (run painter tiled (generateRenovationMaterials "stan 60 m2")))
    = [stored_tile] ++ itemsToAdd
    /\ Forall2 mapped [paint] itemsToAdd
    /\ map ShoppingItem.id itemsToAdd = ["1700000000001k3j9x2m"]
    /\ aiError (store (run painter tiled (generateRenovationMaterials "stan 60 m2"))) = None.
Proof.
  apply (generateRenovationMaterials_appends_batch painter tiled "stan 60 m2" [paint]).
  reflexivity.
Defined.

(** The example of the specification: paint, 5 at 20, category and unit
    empty. *)
Example generateRenovationMaterials_paint :
  allItems (store (run painter tiled (generateRenovationMaterials "stan 60 m2")))
  = [stored_tile;
     ShoppingItem.mk "1700000000001k3j9x2m" "Paint" "Nekategorizirano" 5%float "kom"
                     20%float 100%float false].
Proof. reflexivity. Qed.

(* ===================================================================== *)
(** ** Rejected calls: the guards of the service and of the component *)

(** C10: whatever its argument, [generateShoppingListSuggestions] begins by
    setting its pending flag true, the error slot to null and the suggestion
    slot to the empty list, and only then goes on; at that point the flag is
    true and the suggestions are gone. Called with an empty collection it
    goes on with the rejection alone, so the call ends with the suggestions
    empty, the error set and the flag false again. *)
Theorem generateShoppingListSuggestions_opens_before_check (h : Host) (w : World) :
  (forall shoppingItems : list ShoppingItem.t,
      exists rest : list effect,
        effects (run h w (generateShoppingListSuggestions shoppingItems))
        = effects w ++ suggestions_opening ++ rest
        /\ store (run h w (generateShoppingListSuggestions shoppingItems))
           = replay rest (replay suggestions_opening (store w)))
  /\ isGeneratingShoppingList (replay suggestions_opening (store w)) = true
  /\ shoppingListSuggestions (replay suggestions_opening (store w)) = []
  /\ effects (run h w (generateShoppingListSuggestions []))
     = effects w ++ suggestions_opening ++ suggestions_rejection
  /\ shoppingListSuggestions (store (run h w (generateShoppingListSuggestions []))) = []
  /\ aiError (store (run h w (generateShoppingListSuggestions [])))
     = Some empty_list_error
  /\ isGeneratingShoppingList (store (run h w (generateShoppingListSuggestions [])))
     = false.
Proof.
  split; [intros shoppingItems; apply generateShoppingListSuggestions_opens |].
  rewrite generateShoppingListSuggestions_empty. repeat split.
Qed.

(** A rejected call wipes the suggestions of an earlier run. *)
Example generateShoppingListSuggestions_erases :
  shoppingListSuggestions
    (store (run offline (fresh (assign (shoppingListSuggestions_set [hammer]) initial))
                (generateShoppingListSuggestions [])))
  = [].
Proof. reflexivity. Qed.

(** C6 as stated fails on the service's own guard: the call with an empty
    collection is rejected, no request is issued and the error slot is set,
    yet its pending flag has been set true on the way. *)
Lemma rejected_suggestions_call_sets_pending :
  existsb is_request
          (effects (run offline (fresh initial) (generateShoppingListSuggestions [])))
  = false
  /\ aiError (store (run offline (fresh initial) (generateShoppingListSuggestions [])))
     = Some empty_list_error
  /\ In (Assigned (isGeneratingShoppingList_set true))
        (effects (run offline (fresh initial) (generateShoppingListSuggestions []))).
Proof.
  split; [reflexivity |]. split; [reflexivity |]. left. reflexivity.
Qed.

(** [generateRenovationMaterials] has no guard of its own: handed the empty
    description it sets its flag and sends the request. *)
Example generateRenovationMaterials_empty_description :
  firstn 3 (effects (run offline (fresh initial) (generateRenovationMaterials "")))
  = [ Assigned (isGenerating_set true); Assigned (aiError_set None);
      Requested (MaterialsRequest "") ].
Proof. reflexivity. Qed.

Lemma onGenerateList_blank (h : Host) (w : World) :
  is_blank (aiPrompt (store w)) = true ->
  run h w onGenerateList
  = mkWorld (assign (aiError_set (Some missing_description_error)) (store w))
            (effects w ++ [Assigned (aiError_set (Some missing_description_error))])
            (calls w).
Proof.
  unfold is_blank, onGenerateList. intros Hblank.
  unfold run, bind, read. reduce_world. rewrite Hblank. reflexivity.
Qed.

Lemma onGenerateShoppingList_empty (h : Host) (w : World) :
  allItems (store w) = [] ->
  run h w onGenerateShoppingList
  = mkWorld (assign (aiError_set (Some empty_shopping_list_error)) (store w))
            (effects w ++ [Assigned (aiError_set (Some empty_shopping_list_error))])
            (calls w).
Proof.
  unfold onGenerateShoppingList. intros Hempty.
  unfold run, bind, read. reduce_world. rewrite Hempty. reflexivity.
Qed.

(** C6, amended: the component's handlers reject a blank description
    ([onGenerateList]) and an empty collection ([onGenerateShoppingList])
    before anything else happens: the whole effect of the handler is one
    assignment, of the message to the error slot; no request is issued, no
    host call made, and no pending flag assigned. The service's own guard in
    [generateShoppingListSuggestions] issues no request either and leaves the
    error set and the flag false, after the opening assignments. *)
Theorem handlers_reject_before_request (h : Host) (w : World) :
  (is_blank (aiPrompt (store w)) = true ->
   run h w onGenerateList
   = mkWorld (assign (aiError_set (Some missing_description_error)) (store w))
             (effects w ++ [Assigned (aiError_set (Some missing_description_error))])
             (calls w))
  /\ (allItems (store w) = [] ->
      run h w onGenerateShoppingList
      = mkWorld (assign (aiError_set (Some empty_shopping_list_error)) (store w))
                (effects w ++ [Assigned (aiError_set (Some empty_shopping_list_error))])
                (calls w))
  /\ run h w (generateShoppingListSuggestions [])
     = mkWorld (replay (suggestions_opening ++ suggestions_rejection) (store w))
               (effects w ++ suggestions_opening ++ suggestions_rejection)
               (calls w)
  /\ existsb is_request (suggestions_opening ++ suggestions_rejection) = false
  /\ aiError (replay (suggestions_opening ++ suggestions_rejection) (store w))
     = Some empty_list_error
  /\ isGeneratingShoppingList
       (replay (suggestions_opening ++ suggestions_rejection) (store w)) = false.
Proof.
  split; [apply onGenerateList_blank |].
  split; [apply onGenerateShoppingList_empty |].
  split; [apply generateShoppingListSuggestions_empty |].
  repeat split.
Qed.

Lemma handlers_reject_before_request_witness :
  effects (run offline spaces onGenerateList)
  = [Assigned (aiError_set (Some missing_description_error))]
  /\ effects (run offline spaces onGenerateShoppingList)
     = [Assigned (aiError_set (Some empty_shopping_list_error))]
  /\ isGenerating (store (run offline spaces onGenerateList)) = false
  /\ isGeneratingShoppingList (store (run offline spaces onGenerateShoppingList)) = false.
Proof.
  destruct (handlers_reject_before_request offline spaces) as (Hlist & Hshopping & _).
  rewrite Hlist by reflexivity. rewrite Hshopping by reflexivity.
  repeat split.
Defined.

(* ===================================================================== *)
(** ** Sorting with a comparator *)

Section Sorting.

Variable A : Type.
Variable compare : A -> A -> Z.

(** Of two elements one may stand before the other. *)
Hypothesis compare_total : forall a b : A, precedes compare a b \/ precedes compare b a.

Lemma insert_sorted_permutation (x : A) (l : list A) :
  Permutation (insert_sorted compare x l) (x :: l).
Proof.
  induction l as [| y r IH]; cbn [insert_sorted].
  - apply Permutation_refl.
  - destruct (compare x y <=? 0)%Z.
    + apply Permutation_refl.
    + apply perm_trans with (y :: x :: r).
      * apply perm_skip. exact IH.
      * apply perm_swap.
Qed.

Lemma Array_sort_permutation (l : list A) : Permutation (Array_sort compare l) l.
Proof.
  induction l as [| x r IH]; cbn [Array_sort fold_right].
  - apply perm_nil.
  - apply perm_trans with (x :: Array_sort compare r).
    + apply insert_sorted_permutation.
    + apply perm_skip. exact IH.
Qed.

Lemma insert_sorted_head (x y : A) (l : list A) :
  precedes compare y x ->
  HdRel (precedes compare) y l ->
  HdRel (precedes compare) y (insert_sorted compare x l).
Proof.
  intros Hyx Hhd. destruct l as [| z r]; cbn [insert_sorted].
  - constructor. exact Hyx.
  - destruct (compare x z <=? 0)%Z.
    + constructor. exact Hyx.
    + constructor. inversion Hhd; assumption.
Qed.

Lemma insert_sorted_sorted (x : A) (l : list A) :
  Sorted (precedes compare) l -> Sorted (precedes compare) (insert_sorted compare x l).
Proof.
  induction 1 as [| y r Hsorted IH Hhd]; cbn [insert_sorted].
  - repeat constructor.
  - destruct (Z.leb_spec (compare x y) 0) as [Hle | Hgt].
    + constructor; [constructor; assumption | constructor; exact Hle].
    + constructor; [exact IH |].
      apply insert_sorted_head; [| exact Hhd].
      destruct (compare_total x y) as [Hxy | Hyx]; [| exact Hyx].
      unfold precedes in Hxy. lia.
Qed.

Lemma Array_sort_sorted (l : list A) : Sorted (precedes compare) (Array_sort compare l).
Proof.
  induction l as [| x r IH]; cbn [Array_sort fold_right].
  - constructor.
  - apply insert_sorted_sorted. exact IH.
Qed.

(** With a transitive comparator the sort is stable: the elements tied
    with a given one come out in the order they went in. *)
Hypothesis compare_transitive :
  forall a b c : A, precedes compare a b -> precedes compare b c -> precedes compare a c.

Lemma insert_sorted_stable (z x : A) (l : list A) :
  filter (tied compare z) (insert_sorted compare x l) = filter (tied compare z) (x :: l).
Proof.
  induction l as [| y r IH]; cbn [insert_sorted].
  - reflexivity.
  - destruct (Z.leb_spec (compare x y) 0) as [Hle | Hgt]; [reflexivity |].
    cbn [filter] in *. rewrite IH.
    destruct (tied compare z x) eqn:Hx, (tied compare z y) eqn:Hy; try reflexivity.
    exfalso. unfold tied in Hx, Hy.
    apply andb_prop in Hx. apply andb_prop in Hy.
    destruct Hx as [_ Hxz], Hy as [Hzy _].
    apply Z.leb_le in Hxz, Hzy.
    pose proof (compare_transitive x z y Hxz Hzy) as Hxy.
    unfold precedes in Hxy. lia.
Qed.

Lemma Array_sort_stable (z : A) (l : list A) :
  filter (tied compare z) (Array_sort compare l) = filter (tied compare z) l.
Proof.
  induction l as [| x r IH]; cbn [Array_sort fold_right].
  - reflexivity.
  - fold (Array_sort compare r). rewrite insert_sorted_stable.
    cbn [filter]. rewrite IH. reflexivity.
Qed.

End Sorting.

(* ===================================================================== *)
(** ** Own properties *)

Section OwnProperties.

Variable V : Type.

Lemma own_None_keys (o : JsObject V) (k : string) :
  own o k = None <-> ~ In k (Object_keys o).
Proof.
  induction o as [| [k' v'] r IH]; cbn [own Object_keys map fst In].
  - split; [intros _ [] | reflexivity].
  - destruct (String.eqb_spec k' k) as [Heq | Hne].
    + split; [discriminate | intros Hnot; exfalso; apply Hnot; left; exact Heq].
    + rewrite IH. unfold Object_keys. split.
      * intros Hnot [Heq | Hin]; [contradiction | apply Hnot; exact Hin].
      * intros Hnot Hin. apply Hnot. right. exact Hin.
Qed.

Lemma own_create_same (o : JsObject V) (k : string) (v : V) :
  own o k = None -> own (create k v o) k = Some v.
Proof.
  induction o as [| [k' v'] r IH]; cbn [own create]; intros Hnone.
  - rewrite String.eqb_refl. reflexivity.
  - destruct (String.eqb_spec k' k) as [Heq | Hne]; [discriminate |].
    apply String.eqb_neq in Hne.
    destruct (array_index k) as [n |], (array_index k') as [n' |];
      try destruct (n <? n')%N; cbn [own];
      rewrite ?String.eqb_refl, ?Hne; auto.
Qed.

Lemma own_create_other (o : JsObject V) (k k' : string) (v : V) :
  k <> k' -> own (create k v o) k' = own o k'.
Proof.
  intros Hne. apply String.eqb_neq in Hne.
  induction o as [| [k0 v0] r IH]; cbn [own create].
  - rewrite Hne. reflexivity.
  - destruct (array_index k) as [n |], (array_index k0) as [n0 |];
      try destruct (n <? n0)%N; cbn [own];
      rewrite ?Hne, ?IH; reflexivity.
Qed.

Lemma own_replace_same (o : JsObject V) (k : string) (v v0 : V) :
  own o k = Some v0 -> own (replace k v o) k = Some v.
Proof.
  induction o as [| [k' v'] r IH]; cbn [own replace]; intros Hsome.
  - discriminate.
  - destruct (k' =? k)%string eqn:Heq; cbn [own]; rewrite Heq; auto.
Qed.

Lemma own_replace_other (o : JsObject V) (k k' : string) (v : V) :
  k <> k' -> own (replace k v o) k' = own o k'.
Proof.
  intros Hne.
  induction o as [| [k0 v0] r IH]; cbn [own replace].
  - reflexivity.
  - destruct (String.eqb_spec k0 k) as [Heq | Hne0]; cbn [own].
    + subst k0. apply String.eqb_neq in Hne. rewrite Hne. reflexivity.
    + rewrite IH. reflexivity.
Qed.

Lemma keys_create (o : JsObject V) (k : string) (v : V) :
  Permutation (Object_keys (create k v o)) (k :: Object_keys o).
Proof.
  unfold Object_keys.
  induction o as [| [k' v'] r IH]; cbn [create map fst].
  - apply Permutation_refl.
  - assert (Hlater : Permutation (k' :: map fst (create k v r)) (k :: k' :: map fst r)).
    { apply perm_trans with (k' :: k :: map fst r);
        [apply perm_skip; exact IH | apply perm_swap]. }
    destruct (array_index k) as [n |], (array_index k') as [n' |];
      try destruct (n <? n')%N; cbn [map fst];
      first [apply Permutation_refl | exact Hlater].
Qed.

Lemma keys_replace (o : JsObject V) (k : string) (v : V) :
  Object_keys (replace k v o) = Object_keys o.
Proof.
  unfold Object_keys.
  induction o as [| [k' v'] r IH]; cbn [replace map fst].
  - reflexivity.
  - destruct (k' =? k)%string; cbn [map fst]; [| rewrite IH]; reflexivity.
Qed.

End OwnProperties.

(* ===================================================================== *)
(** ** [categorizedItems]: grouping *)

Lemma bucket_snoc (k : string) (items : list ShoppingItem.t) (item : ShoppingItem.t) :
  bucket k (items ++ [item])
  = bucket k items ++ (if (category_key item =? k)%string then [item] else []).
Proof. unfold bucket. rewrite filter_app. reflexivity. Qed.

Lemma grouped_nil : grouped [] [].
Proof. split; [constructor | reflexivity]. Qed.

Lemma categorize_grouped (processed : list ShoppingItem.t)
  (categories : JsObject (list ShoppingItem.t)) (item : ShoppingItem.t) :
  grouped processed categories ->
  inherited (category_key item) = false ->
  exists categories',
    categorize categories item = inr categories'
    /\ grouped (processed ++ [item]) categories'.
Proof.
  intros [Hkeys Hown] Hplain. unfold categorize, get.
  pose proof (Hown (category_key item)) as Hhere.
  destruct (bucket (category_key item) processed) as [| first others] eqn:Hbucket;
    rewrite Hhere.
  - rewrite Hplain. eexists. split; [reflexivity |]. split.
    + apply (Permutation_NoDup (Permutation_sym (keys_create _ _ _ _))).
      constructor; [apply own_None_keys; exact Hhere | exact Hkeys].
    + intros k. rewrite bucket_snoc.
      destruct (String.eqb_spec (category_key item) k) as [Heq | Hne].
      * subst k. rewrite Hbucket. apply own_create_same. exact Hhere.
      * rewrite app_nil_r, own_create_other by exact Hne. apply Hown.
  - eexists. split; [reflexivity |]. split.
    + rewrite keys_replace. exact Hkeys.
    + intros k. rewrite bucket_snoc.
      destruct (String.eqb_spec (category_key item) k) as [Heq | Hne].
      * subst k. rewrite Hbucket.
        rewrite (own_replace_same _ _ _ _ _ Hhere). reflexivity.
      * rewrite app_nil_r, own_replace_other by exact Hne. apply Hown.
Qed.

Lemma forEach_categorize_grouped (rest : list ShoppingItem.t) :
  forall (processed : list ShoppingItem.t) (categories : JsObject (list ShoppingItem.t)),
    grouped processed categories ->
    plain_categories rest ->
    exists categories',
      forEach_categorize rest categories = inr categories'
      /\ grouped (processed ++ rest) categories'.
Proof.
  induction rest as [| item rest IH]; intros processed categories Hgrouped Hplain;
    cbn [forEach_categorize].
  - exists categories. rewrite app_nil_r. split; [reflexivity | exact Hgrouped].
  - destruct (categorize_grouped _ _ item Hgrouped) as (step & Hstep & Hgrouped').
    { apply Hplain. left. reflexivity. }
    rewrite Hstep.
    destruct (IH (processed ++ [item]) step Hgrouped') as (final & Hfinal & Hgrouped'').
    { intros other Hin. apply Hplain. right. exact Hin. }
    exists final. rewrite <- app_assoc in Hgrouped''. split; assumption.
Qed.

(** An item whose category names a property of [Object.prototype] stops the
    grouping with a [TypeError], wherever it stands in the collection. *)
Lemma forEach_categorize_throws (rest : list ShoppingItem.t) :
  forall (processed : list ShoppingItem.t) (categories : JsObject (list ShoppingItem.t)),
    grouped processed categories ->
    plain_categories processed ->
    Exists (fun item => inherited (category_key item) = true) rest ->
    forEach_categorize rest categories = inl TypeError.
Proof.
  induction rest as [| item rest IH]; intros processed categories Hgrouped Hplain Hexists;
    cbn [forEach_categorize].
  - inversion Hexists.
  - destruct (inherited (category_key item)) eqn:Hitem.
    + unfold categorize, get.
      rewrite (proj2 Hgrouped (category_key item)).
      assert (Hbucket : bucket (category_key item) processed = []).
      { destruct (bucket (category_key item) processed) as [| first others] eqn:Hb;
          [reflexivity | exfalso].
        assert (Hin : In first (bucket (category_key item) processed))
          by (rewrite Hb; left; reflexivity).
        apply filter_In in Hin. destruct Hin as [Hin Hkey].
        apply String.eqb_eq in Hkey. apply Hplain in Hin.
        rewrite Hkey, Hitem in Hin. discriminate. }
      rewrite Hbucket, Hitem. reflexivity.
    + destruct (categorize_grouped _ _ item Hgrouped Hitem) as (step & Hstep & Hgrouped').
      rewrite Hstep. apply (IH (processed ++ [item]) step Hgrouped').
      * intros other Hin. apply in_app_or in Hin.
        destruct Hin as [Hin | [Heq | []]]; [apply Hplain; exact Hin | subst; exact Hitem].
      * inversion Hexists as [? ? Hhead | ? ? Htail]; subst;
          [rewrite Hitem in Hhead; discriminate | exact Htail].
Qed.

Lemma keys_sort_groups (h : Host) (categories : JsObject (list ShoppingItem.t)) :
  Object_keys (sort_groups h categories) = Object_keys categories.
Proof.
  unfold Object_keys, sort_groups. rewrite map_map. apply map_ext. reflexivity.
Qed.

Lemma own_sort_groups (h : Host) (categories : JsObject (list ShoppingItem.t)) (k : string) :
  own (sort_groups h categories) k
  = option_map (Array_sort (compare_by_name h)) (own categories k).
Proof.
  induction categories as [| [k' group] r IH]; cbn [sort_groups map own fst snd option_map].
  - reflexivity.
  - destruct (k' =? k)%string; [reflexivity | exact IH].
Qed.

Section Grouping.

Variable h : Host.

(** [localeCompare] orders any two strings one way or the other. *)
Hypothesis localeCompare_total :
  forall a b : string,
    precedes (localeCompare h) a b \/ precedes (localeCompare h) b a.



End Grouping.

Lemma byte_order_total (a b : string) :
  precedes byte_order a b \/ precedes byte_order b a.
Proof.
  unfold precedes, byte_order. rewrite (String.compare_antisym a b).
  destruct (String.compare b a); cbn; lia.
Qed.

(** Five items in four categories, two of them array indices, one blank. *)
Example categorizedItems_five :
  option_map (map (fun g => (CategorizedShoppingItem.categoryName g,
                             map ShoppingItem.name (CategorizedShoppingItem.items g))))
    match categorizedItems offline
            (store (run offline (fresh initial)
                        (perform_all
                           [Add tile;
                            Add (Draft.mk "Paint" "  " 1%float "l" 2%float false);
                            Add (Draft.mk "Adhesive" " Flooring " 1%float "kg" 2%float false);
                            Add (Draft.mk "Screws" "10" 1%float "" 2%float false);
                            Add (Draft.mk "Nails" "9" 1%float "" 2%float false)]))) with
    | inr groups => Some groups
    | inl _ => None
    end
  = Some [ ("10", ["Screws"]); ("9", ["Nails"]);
           ("Flooring", ["Adhesive"; "Tile"]); ("Nekategorizirano", ["Paint"]) ].
Proof. reflexivity. Qed.


(** [categorizedItems] throws on every collection in which some category
    names a property of [Object.prototype]; by [categorizedItems_groups] it
    returns on every other. *)
Lemma categorizedItems_throws (h : Host) (s : Store) :
  Exists (fun item => inherited (category_key item) = true) (allItems s) ->
  categorizedItems h s = inl TypeError.
Proof.
  intros Hexists. unfold categorizedItems.
  rewrite (forEach_categorize_throws (itemsSignal s) [] [] grouped_nil); [reflexivity | |].
  - intros item [].
  - exact Hexists.
Qed.

(** C4, at the input where it fails: once an item of category
    ["constructor"] is in the collection, [categorizedItems()] returns no
    groups: it throws a [TypeError], with any host. *)
Theorem categorizedItems_constructor_throws (h : Host) :
  allItems (store (run h (fresh initial) (addItem door)))
  = [ShoppingItem.mk (toString (Date_now h 0)) "Door" "constructor" 1%float "kom"
                     250%float 250%float false]
  /\ categorizedItems h (store (run h (fresh initial) (addItem door))) = inl TypeError.
Proof.
  split; [reflexivity |].
  apply categorizedItems_throws. rewrite allItems_addItem. cbn [app allItems itemsSignal].
  left. reflexivity.
Qed.

(** [categoryCosts] keeps its totals in a [Map] and takes the same
    collection in its stride. *)
Example categoryCosts_constructor :
  categoryCosts offline (store (run offline (fresh initial) (addItem door)))
  = [("constructor", 250%float)].
Proof. reflexivity. Qed.

(* ===================================================================== *)
(** ** The item store: removal, identity and repetition *)

Lemma filter_absent {A} (f : A -> bool) (l : list A) :
  (forall x, In x l -> f x = true) -> filter f l = l.
Proof.
  induction l as [| x r IH]; intros Hall; cbn [filter].
  - reflexivity.
  - rewrite (Hall x (or_introl eq_refl)), IH; [reflexivity |].
    intros y Hy. apply Hall. right. exact Hy.
Qed.

Lemma removeItem_absent (h : Host) (w : World) (id : string) :
  (forall item, In item (allItems (store w)) -> ShoppingItem.id item <> id) ->
  store (run h w (removeItem id)) = store w.
Proof.
  intros Habsent.
  assert (Hfilter : filter (fun item => negb (ShoppingItem.id item =? id)%string)
                           (itemsSignal (store w)) = itemsSignal (store w)).
  { apply filter_absent. intros item Hin. apply negb_true_iff, String.eqb_neq.
    apply Habsent. exact Hin. }
  unfold run, removeItem, itemsSignal_update, bind, read, set. cbn.
  rewrite Hfilter. apply assign_same_items.
Qed.

(** X2: [removeItem(id)] leaves no item with that id and keeps every item
    with another id; removing the same id again removes nothing more; and
    when no item has the id, every signal stays as it was. *)
Theorem removeItem_removes_that_id (h : Host) (w : World) (id : string) :
  (forall item, In item (allItems (store (run h w (removeItem id)))) ->
                ShoppingItem.id item <> id)
  /\ (forall item, In item (allItems (store w)) -> ShoppingItem.id item <> id ->
                   In item (allItems (store (run h w (removeItem id)))))
  /\ (forall other : string, other <> id ->
        filter (has_id other) (allItems (store (run h w (removeItem id))))
        = filter (has_id other) (allItems (store w)))
  /\ allItems (store (run h (run h w (removeItem id)) (removeItem id)))
     = allItems (store (run h w (removeItem id)))
  /\ ((forall item, In item (allItems (store w)) -> ShoppingItem.id item <> id) ->
      store (run h w (removeItem id)) = store w).
Proof.
  assert (Hgone : forall item, In item (allItems (store (run h w (removeItem id)))) ->
                               ShoppingItem.id item <> id).
  { intros item Hin. rewrite allItems_removeItem in Hin.
    apply filter_In in Hin. destruct Hin as [_ Hid].
    apply negb_true_iff, String.eqb_neq in Hid. exact Hid. }
  split; [exact Hgone |]. split; [| split; [| split]].
  - intros item Hin Hid. rewrite allItems_removeItem. apply filter_In.
    split; [exact Hin | apply negb_true_iff, String.eqb_neq; exact Hid].
  - intros other Hother. rewrite allItems_removeItem.
    induction (allItems (store w)) as [| item rest IH]; cbn [filter].
    + reflexivity.
    + unfold has_id at 2.
      destruct (String.eqb_spec (ShoppingItem.id item) id) as [Hid | Hid]; cbn [negb filter].
      * destruct (String.eqb_spec (ShoppingItem.id item) other) as [Heq | _];
          [congruence | exact IH].
      * unfold has_id at 1.
        destruct (ShoppingItem.id item =? other)%string; [rewrite IH |]; auto.
  - rewrite (removeItem_absent h (run h w (removeItem id)) id Hgone). reflexivity.
  - apply removeItem_absent.
Qed.

Lemma removeItem_removes_that_id_witness :
  allItems (store (run offline tiled (removeItem "1700000000000"))) = []
  /\ store (run offline tiled (removeItem "42")) = store tiled.
Proof.
  destruct (removeItem_removes_that_id offline tiled "42") as (_ & _ & _ & _ & Habsent).
  split; [reflexivity |].
  apply Habsent. intros item [<- | []]. discriminate.
Defined.

(** X3: an item added and then removed by the id it was given is gone again,
    and the collection is the one before, provided no stored item already
    bore that clock reading as its id. *)
Theorem addItem_removeItem_round_trip (h : Host) (w : World) (item : Draft.t) :
  (forall stored, In stored (allItems (store w)) ->
                  ShoppingItem.id stored <> toString (Date_now h (calls w))) ->
  allItems (store (run h (run h w (addItem item))
                       (removeItem (toString (Date_now h (calls w))))))
  = allItems (store w).
Proof.
  intros Hfresh. rewrite allItems_removeItem, allItems_addItem, filter_app.
  cbn [filter ShoppingItem.id]. rewrite String.eqb_refl. cbn [negb].
  rewrite app_nil_r. apply filter_absent.
  intros stored Hin. apply negb_true_iff, String.eqb_neq. apply Hfresh. exact Hin.
Qed.

Lemma addItem_removeItem_round_trip_witness :
  allItems (store (run offline (run offline (fresh initial) (addItem tile))
                       (removeItem "1700000000000")))
  = [].
Proof.
  apply (addItem_removeItem_round_trip offline (fresh initial) tile).
  intros stored [].
Defined.

(** X4: the id is the clock reading alone: two items added while the clock
    stands still bear the same id, and [removeItem] of that id takes both. *)
Theorem same_millisecond_same_id (h : Host) (w : World) (first second : Draft.t) :
  Date_now h (S (calls w)) = Date_now h (calls w) ->
  exists a b : ShoppingItem.t,
    allItems (store (run h (run h w (addItem first)) (addItem second)))
    = allItems (store w) ++ [a; b]
    /\ ShoppingItem.id a = ShoppingItem.id b
    /\ ShoppingItem.name a = Draft.name first
    /\ ShoppingItem.name b = Draft.name second
    /\ forall item,
         In item (allItems (store (run h (run h (run h w (addItem first)) (addItem second))
                                       (removeItem (ShoppingItem.id a))))) ->
         In item (allItems (store w)).
Proof.
  intros Hclock. eexists. eexists.
  rewrite (allItems_addItem h (run h w (addItem first)) second), allItems_addItem.
  rewrite <- app_assoc. cbn [app]. split; [reflexivity |].
  change (calls (run h w (addItem first))) with (S (calls w)).
  cbn [ShoppingItem.id ShoppingItem.name]. rewrite Hclock.
  split; [reflexivity |]. split; [reflexivity |]. split; [reflexivity |].
  intros item Hin. rewrite allItems_removeItem in Hin.
  apply filter_In in Hin. destruct Hin as [Hin Hid].
  rewrite (allItems_addItem h (run h w (addItem first)) second), allItems_addItem in Hin.
  change (calls (run h w (addItem first))) with (S (calls w)) in Hin.
  rewrite Hclock in Hin.
  apply in_app_or in Hin. destruct Hin as [Hin | [<- | []]].
  - apply in_app_or in Hin. destruct Hin as [Hin | [<- | []]]; [exact Hin |].
    cbn [ShoppingItem.id] in Hid. rewrite String.eqb_refl in Hid. discriminate.
  - cbn [ShoppingItem.id] in Hid. rewrite String.eqb_refl in Hid. discriminate.
Qed.

Lemma same_millisecond_same_id_witness :
  exists a b : ShoppingItem.t,
    allItems (store (run frozen (run frozen (fresh initial) (addItem tile)) (addItem tile)))
    = [] ++ [a; b]
    /\ ShoppingItem.id a = ShoppingItem.id b
    /\ ShoppingItem.name a = "Tile"
    /\ ShoppingItem.name b = "Tile"
    /\ forall item,
         In item (allItems (store (run frozen
                                       (run frozen (run frozen (fresh initial) (addItem tile))
                                            (addItem tile))
                                       (removeItem (ShoppingItem.id a))))) ->
         In item [].
Proof.
  apply (same_millisecond_same_id frozen (fresh initial) tile tile). reflexivity.
Defined.

(** X5: [updateItem] neither adds nor removes an item, and it leaves the
    items with another id as they are, each in its place; as long as the
    fields carry no [id], every item keeps its id. *)
Theorem updateItem_touches_only_that_id (h : Host) (w : World) (id : string)
  (updates : Partial.t) :
  List.length (allItems (store (run h w (updateItem id updates))))
  = List.length (allItems (store w))
  /\ (forall (i : nat) (item : ShoppingItem.t),
        nth_error (allItems (store w)) i = Some item ->
        ShoppingItem.id item <> id ->
        nth_error (allItems (store (run h w (updateItem id updates)))) i = Some item)
  /\ (Partial.id updates = None ->
      map ShoppingItem.id (allItems (store (run h w (updateItem id updates))))
      = map ShoppingItem.id (allItems (store w))).
Proof.
  rewrite allItems_updateItem. split; [apply length_map |]. split.
  - intros i item Hnth Hid. rewrite nth_error_map, Hnth. cbn [option_map].
    rewrite updated_other by exact Hid. reflexivity.
  - intros Hnone. rewrite map_map. apply map_ext.
    intros item. apply updated_keeps_id. exact Hnone.
Qed.

Lemma updateItem_touches_only_that_id_witness :
  nth_error (allItems (store (run offline tiled (updateItem "42" (id_only "7"))))) 0
  = Some stored_tile
  /\ map ShoppingItem.id
         (allItems (store (run offline tiled
                               (updateItem "1700000000000" (quantity_only 3%float)))))
     = ["1700000000000"].
Proof.
  split.
  - apply (proj1 (proj2 (updateItem_touches_only_that_id offline tiled "42" (id_only "7")))
                 0%nat stored_tile); [reflexivity | discriminate].
  - apply (proj2 (proj2 (updateItem_touches_only_that_id offline tiled "1700000000000"
                           (quantity_only 3%float)))).
    reflexivity.
Defined.

Lemma updated_twice (id : string) (updates : Partial.t) (item : ShoppingItem.t) :
  updated id updates (updated id updates item) = updated id updates item.
Proof.
  destruct (ShoppingItem.id item =? id)%string eqn:Hid.
  - destruct updates as [uid uname ucategory uquantity uunit uprice ucost upurchased].
    unfold updated at 2 3. rewrite Hid.
    cbn [spread Partial.id Partial.name Partial.category Partial.quantity Partial.unit
         Partial.pricePerUnit Partial.totalCost Partial.purchased
         ShoppingItem.id ShoppingItem.name ShoppingItem.category ShoppingItem.quantity
         ShoppingItem.unit ShoppingItem.pricePerUnit ShoppingItem.totalCost
         ShoppingItem.purchased].
    unfold updated.
    cbn [spread Partial.id Partial.name Partial.category Partial.quantity Partial.unit
         Partial.pricePerUnit Partial.totalCost Partial.purchased
         ShoppingItem.id ShoppingItem.name ShoppingItem.category ShoppingItem.quantity
         ShoppingItem.unit ShoppingItem.pricePerUnit ShoppingItem.totalCost
         ShoppingItem.purchased].
    destruct uid as [newId |]; cbn [overridden].
    + destruct (newId =? id)%string; [| reflexivity].
      destruct uname, ucategory, uquantity, uunit, uprice, ucost, upurchased; reflexivity.
    + rewrite Hid.
      destruct uname, ucategory, uquantity, uunit, uprice, ucost, upurchased; reflexivity.
  - unfold updated. rewrite Hid, Hid. reflexivity.
Qed.

(** X6: sending the same [updateItem] again changes nothing more, whatever
    the fields. *)
Theorem updateItem_twice (h : Host) (w : World) (id : string) (updates : Partial.t) :
  allItems (store (run h (run h w (updateItem id updates)) (updateItem id updates)))
  = allItems (store (run h w (updateItem id updates))).
Proof.
  rewrite !allItems_updateItem, map_map.
  apply map_ext. intros item. apply updated_twice.
Qed.

(* ===================================================================== *)
(** ** Sequences of service calls *)

Lemma allItems_generateRenovationMaterials (h : Host) (w : World) (userPrompt : string) :
  allItems (store (run h w (generateRenovationMaterials userPrompt)))
  = allItems (store w)
    ++ match materials_reply h (calls w) userPrompt with
       | Threw _ => []
       | Returned entries => shoppingItems_from h (S (calls w)) entries
       end.
Proof.
  destruct (materials_reply h (calls w) userPrompt) as [error | entries] eqn:Hreply.
  - rewrite (generateRenovationMaterials_fails _ _ _ _ Hreply), app_nil_r. reflexivity.
  - rewrite (generateRenovationMaterials_succeeds _ _ _ _ Hreply). reflexivity.
Qed.

Lemma allItems_generateDetailedAnalysis (h : Host) (w : World) (userPrompt : string) :
  allItems (store (run h w (generateDetailedAnalysis userPrompt))) = allItems (store w).
Proof.
  rewrite generateDetailedAnalysis_store.
  destruct (generateContent h (calls w) _); reflexivity.
Qed.

Lemma allItems_generateShoppingListSuggestions (h : Host) (w : World)
  (shoppingItems : list ShoppingItem.t) :
  allItems (store (run h w (generateShoppingListSuggestions shoppingItems)))
  = allItems (store w).
Proof.
  destruct shoppingItems as [| item rest].
  - rewrite generateShoppingListSuggestions_empty. reflexivity.
  - rewrite generateShoppingListSuggestions_store by discriminate.
    destruct (suggestions_reply h (calls w) _); reflexivity.
Qed.

Lemma allItems_generateOperationalBrief (h : Host) (w : World)
  (detailedAnalysis : option string) (shoppingItems : list ShoppingItem.t)
  (productSuggestions : list GeneratedProductSuggestion.t) :
  allItems (store (run h w (generateOperationalBrief detailedAnalysis shoppingItems
                                                     productSuggestions)))
  = allItems (store w).
Proof.
  rewrite generateOperationalBrief_store.
  destruct (nothing_to_brief _ _ _); [reflexivity |].
  destruct (generateContent h (calls w) _); reflexivity.
Qed.

Lemma or_default_set (s d : string) : d <> "" -> or_default s d <> "".
Proof.
  intros Hd. unfold or_default.
  destruct (String.eqb_spec s "") as [_ | Hs]; assumption.
Qed.

Lemma opt_or_default_set (o : option string) (d : string) :
  d <> "" -> opt_or_default o d <> "".
Proof.
  intros Hd. destruct o as [s |]; cbn [opt_or_default];
    [apply or_default_set |]; exact Hd.
Qed.

Lemma updated_labelled (id : string) (updates : Partial.t) (item : ShoppingItem.t) :
  labelled item -> labelled (updated id updates item).
Proof.
  intros [Hcategory Hunit]. unfold updated.
  destruct (ShoppingItem.id item =? id)%string; [| split; assumption].
  unfold labelled. cbn [ShoppingItem.category ShoppingItem.unit spread].
  split.
  - destruct (Partial.category updates) as [c |]; cbn [overridden];
      [apply or_default_set; discriminate | exact Hcategory].
  - destruct (Partial.unit updates) as [u |]; cbn [overridden];
      [apply or_default_set; discriminate | exact Hunit].
Qed.

Lemma shoppingItems_from_labelled (h : Host) (entries : list GeneratedShoppingItem.t) :
  forall n : nat, Forall labelled (shoppingItems_from h n entries).
Proof.
  induction entries as [| genItem rest IH]; intros n; cbn [shoppingItems_from].
  - constructor.
  - constructor; [| apply IH].
    split; cbn [ShoppingItem.category ShoppingItem.unit];
      apply opt_or_default_set; discriminate.
Qed.

Lemma invoke_labelled (h : Host) (w : World) (c : call) :
  Forall labelled (allItems (store w)) ->
  Forall labelled (allItems (store (run h w (invoke c)))).
Proof.
  intros Hall. destruct c as [[item | id updates | id |] | p | p | items | da items sugs];
    cbn [invoke perform].
  - rewrite allItems_addItem. apply Forall_app. split; [exact Hall |].
    constructor; [| constructor].
    split; cbn [ShoppingItem.category ShoppingItem.unit];
      apply or_default_set; discriminate.
  - rewrite allItems_updateItem. apply Forall_map.
    revert Hall. apply Forall_impl. intros item. apply updated_labelled.
  - rewrite allItems_removeItem. rewrite Forall_forall in *.
    intros item Hin. apply filter_In in Hin. apply Hall. apply Hin.
  - rewrite allItems_clearAllItems. constructor.
  - rewrite allItems_generateRenovationMaterials. apply Forall_app. split; [exact Hall |].
    destruct (materials_reply h (calls w) p);
      [constructor | apply shoppingItems_from_labelled].
  - rewrite allItems_generateDetailedAnalysis. exact Hall.
  - rewrite allItems_generateShoppingListSuggestions. exact Hall.
  - rewrite allItems_generateOperationalBrief. exact Hall.
Qed.

(** X7: the service keeps category and unit set. Starting from a collection
    in which no category and no unit is the empty string (the empty
    collection, for one), no sequence of calls to the service's methods, with
    whatever arguments and whatever the host answers, stores an item whose
    category or unit is the empty string. *)
Theorem category_and_unit_always_set (h : Host) (cs : list call) :
  forall w : World,
    Forall labelled (allItems (store w)) ->
    Forall labelled (allItems (store (run h w (invoke_all cs)))).
Proof.
  induction cs as [| c rest IH]; intros w Hall; cbn [invoke_all].
  - exact Hall.
  - rewrite run_then. apply IH. apply invoke_labelled. exact Hall.
Qed.

Lemma category_and_unit_always_set_witness :
  Forall labelled
    (allItems (store (run painter (fresh initial)
                          (invoke_all
                             [Operation (Add (Draft.mk "Tile" "" 1%float "" 2%float false));
                              GenerateRenovationMaterials "stan 60 m2";
                              Operation (Update "1700000000000"
                                           (Partial.mk None None (Some "") None (Some "")
                                                       None None None))])))).
Proof.
  apply (category_and_unit_always_set painter _ (fresh initial)). constructor.
Defined.

(** X8: of the service's methods only the four store operations and
    [generateRenovationMaterials] reach the collection, and the latter only
    adds to its end: the analysis, suggestion and brief workflows leave it as
    it is, whatever the host answers; and no method changes the user's
    budget. *)
Theorem workflows_keep_stored_items (h : Host) (w : World) :
  (forall userPrompt : string,
      exists added : list ShoppingItem.t,
        allItems (store (run h w (generateRenovationMaterials userPrompt)))
        = allItems (store w) ++ added)
  /\ (forall userPrompt : string,
        allItems (store (run h w (generateDetailedAnalysis userPrompt)))
        = allItems (store w))
  /\ (forall shoppingItems : list ShoppingItem.t,
        allItems (store (run h w (generateShoppingListSuggestions shoppingItems)))
        = allItems (store w))
  /\ (forall (detailedAnalysis : option string) (shoppingItems : list ShoppingItem.t)
             (productSuggestions : list GeneratedProductSuggestion.t),
        allItems (store (run h w (generateOperationalBrief detailedAnalysis shoppingItems
                                                           productSuggestions)))
        = allItems (store w))
  /\ (forall c : call, userBudget (store (run h w (invoke c))) = userBudget (store w)).
Proof.
  split; [| split; [| split; [| split]]].
  - intros userPrompt. eexists. apply allItems_generateRenovationMaterials.
  - apply allItems_generateDetailedAnalysis.
  - apply allItems_generateShoppingListSuggestions.
  - apply allItems_generateOperationalBrief.
  - intros [op | p | p | items | da items sugs]; cbn [invoke].
    + apply userBudget_perform.
    + destruct (materials_reply h (calls w) p) as [error | entries] eqn:Hreply.
      * rewrite (generateRenovationMaterials_fails _ _ _ _ Hreply). reflexivity.
      * rewrite (generateRenovationMaterials_succeeds _ _ _ _ Hreply). reflexivity.
    + rewrite generateDetailedAnalysis_store.
      destruct (generateContent h (calls w) _); reflexivity.
    + destruct items as [| item rest].
      * rewrite generateShoppingListSuggestions_empty. reflexivity.
      * rewrite generateShoppingListSuggestions_store by discriminate.
        destruct (suggestions_reply h (calls w) _); reflexivity.
    + rewrite generateOperationalBrief_store.
      destruct (nothing_to_brief _ _ _); [reflexivity |].
      destruct (generateContent h (calls w) _); reflexivity.
Qed.

(* ===================================================================== *)
(** ** The derived views: what they return and when *)





Lemma grouped_keys (items : list ShoppingItem.t)
  (categories : JsObject (list ShoppingItem.t)) (k : string) :
  grouped items categories ->
  (In k (Object_keys categories) <-> bucket k items <> []).
Proof.
  intros [_ Hown]. split.
  - intros Hk Hempty. apply (proj1 (own_None_keys _ categories k)); [| exact Hk].
    rewrite Hown, Hempty. reflexivity.
  - intros Hbucket.
    destruct (in_dec string_dec k (Object_keys categories)) as [Hk | Habsent];
      [exact Hk | exfalso].
    apply own_None_keys in Habsent. rewrite Hown in Habsent.
    destruct (bucket k items); [apply Hbucket; reflexivity | discriminate].
Qed.


(** What [categorizedItems] returns on a collection of plain categories, in
    terms of the buckets. *)
Lemma categorizedItems_returns (h : Host) (s : Store) :
  plain_categories (allItems s) ->
  exists categories : JsObject (list ShoppingItem.t),
    grouped (allItems s) categories
    /\ categorizedItems h s
       = inr (map (fun k => CategorizedShoppingItem.mk
                              k (Array_sort (compare_by_name h) (bucket k (allItems s))))
                  (Array_sort (localeCompare h) (Object_keys categories))).
Proof.
  intros Hplain. unfold categorizedItems, allItems in *.
  destruct (forEach_categorize_grouped (itemsSignal s) [] [] grouped_nil Hplain)
    as (categories & Hrun & Hgrouped).
  cbn [app] in Hgrouped. exists categories. split; [exact Hgrouped |].
  rewrite Hrun, keys_sort_groups. f_equal. apply map_ext_in.
  intros k Hk. f_equal.
  apply (Permutation_in _ (Array_sort_permutation _ (localeCompare h) _)) in Hk.
  unfold group_of. rewrite own_sort_groups, (proj2 Hgrouped).
  apply (grouped_keys _ _ _ Hgrouped) in Hk.
  destruct (bucket k (itemsSignal s)); [contradiction | reflexivity].
Qed.





Section Maps.

Variable V : Type.

Lemma own_app (m m' : list (string * V)) (k : string) :
  own (m ++ m') k = match own m k with Some v => Some v | None => own m' k end.
Proof.
  induction m as [| [k' v'] r IH]; cbn [app own].
  - reflexivity.
  - destruct (k' =? k)%string; [reflexivity | exact IH].
Qed.

Lemma own_Map_set_same (m : list (string * V)) (k : string) (v : V) :
  own (Map_set k v m) k = Some v.
Proof.
  unfold Map_set. destruct (own m k) as [v0 |] eqn:Hown.
  - apply (own_replace_same _ _ _ _ _ Hown).
  - rewrite own_app, Hown. cbn [own]. rewrite String.eqb_refl. reflexivity.
Qed.

Lemma own_Map_set_other (m : list (string * V)) (k k' : string) (v : V) :
  k <> k' -> own (Map_set k v m) k' = own m k'.
Proof.
  intros Hne. unfold Map_set. destruct (own m k) as [v0 |].
  - apply own_replace_other. exact Hne.
  - rewrite own_app. cbn [own].
    apply String.eqb_neq in Hne. rewrite Hne. destruct (own m k'); reflexivity.
Qed.

Lemma keys_Map_set (m : list (string * V)) (k : string) (v : V) :
  map fst (Map_set k v m)
  = match own m k with
    | Some _ => map fst m
    | None => map fst m ++ [k]
    end.
Proof.
  unfold Map_set. destruct (own m k).
  - apply (keys_replace V m k v).
  - rewrite map_app. reflexivity.
Qed.

Lemma NoDup_Map_set (m : list (string * V)) (k : string) (v : V) :
  NoDup (map fst m) -> NoDup (map fst (Map_set k v m)).
Proof.
  intros Hkeys. rewrite keys_Map_set. destruct (own m k) eqn:Hown; [exact Hkeys |].
  apply (Permutation_NoDup (Permutation_cons_append (map fst m) k)).
  constructor; [| exact Hkeys].
  apply (proj1 (own_None_keys V m k)). exact Hown.
Qed.

Lemma own_In (m : list (string * V)) (k : string) (v : V) :
  NoDup (map fst m) -> (In (k, v) m <-> own m k = Some v).
Proof.
  induction m as [| [k' v'] r IH]; cbn [map fst own In]; intros Hkeys.
  - split; [intros [] | discriminate].
  - inversion Hkeys as [| ? ? Hfresh Hrest]; subst.
    destruct (String.eqb_spec k' k) as [Heq | Hne].
    + subst k'. split.
      * intros [Hhead | Htail]; [congruence |].
        exfalso. apply Hfresh. apply (in_map fst) in Htail. exact Htail.
      * intros [= ->]. left. reflexivity.
    + rewrite <- (IH Hrest). split.
      * intros [Hhead | Htail]; [congruence | exact Htail].
      * intros Htail. right. exact Htail.
Qed.

End Maps.

Lemma Sorted_map {A B} (R : B -> B -> Prop) (f : A -> B) (l : list A) :
  Sorted (fun a b => R (f a) (f b)) l -> Sorted R (map f l).
Proof.
  induction 1 as [| a r _ IH Hhd]; cbn [map].
  - constructor.
  - constructor; [exact IH |].
    destruct Hhd as [| b r' Hab]; cbn [map]; constructor. exact Hab.
Qed.

Lemma subtotal_snoc (group : list ShoppingItem.t) (item : ShoppingItem.t) :
  subtotal (group ++ [item]) = cost_step (subtotal group) item.
Proof. unfold subtotal. rewrite fold_left_app. reflexivity. Qed.

Lemma costed_step (processed : list ShoppingItem.t) (costsMap : list (string * number))
  (item : ShoppingItem.t) :
  costed processed costsMap ->
  costed (processed ++ [item])
         (Map_set (category_key item)
                  (Number.add (Map_get_or_zero costsMap (category_key item))
                              (ShoppingItem.totalCost item))
                  costsMap).
Proof.
  intros [Hkeys Hown]. split; [apply NoDup_Map_set; exact Hkeys |].
  intros k. rewrite bucket_snoc.
  destruct (String.eqb_spec (category_key item) k) as [Heq | Hne].
  - subst k. rewrite own_Map_set_same.
    unfold Map_get_or_zero, Map_get. rewrite Hown.
    destruct (bucket (category_key item) processed) as [| first others].
    + reflexivity.
    + cbn [app]. change (first :: others ++ [item]) with ((first :: others) ++ [item]).
      rewrite subtotal_snoc. reflexivity.
  - rewrite app_nil_r, own_Map_set_other by exact Hne. apply Hown.
Qed.

Lemma categoryCosts_costed (h : Host) (s : Store) :
  exists costsMap : list (string * number),
    costed (allItems s) costsMap
    /\ categoryCosts h s
       = Array_sort (fun a b => localeCompare h (fst a) (fst b)) costsMap.
Proof.
  unfold categoryCosts, allItems.
  assert (Hfold : forall (rest processed : list ShoppingItem.t) costsMap,
             costed processed costsMap ->
             costed (processed ++ rest)
               (fold_left
                  (fun costsMap item =>
                     let category := category_key item in
                     Map_set category
                       (Number.add (Map_get_or_zero costsMap category)
                                   (ShoppingItem.totalCost item))
                       costsMap)
                  rest costsMap)).
  { induction rest as [| item rest IH]; intros processed costsMap Hcosted;
      cbn [fold_left].
    - rewrite app_nil_r. exact Hcosted.
    - change (processed ++ item :: rest) with (processed ++ [item] ++ rest).
      rewrite app_assoc. apply IH. apply costed_step. exact Hcosted. }
  eexists. split; [| reflexivity].
  apply (Hfold (itemsSignal s) [] []). split; [constructor | reflexivity].
Qed.



(** X12: the chart and the list show the same categories: whenever
    [categorizedItems()] returns, the categories of [categoryCosts()] are the
    names of its groups, each once. *)
Theorem categoryCosts_same_categories (h : Host) (s : Store)
  (groups : list CategorizedShoppingItem.t) :
  categorizedItems h s = inr groups ->
  Permutation (map fst (categoryCosts h s))
              (map CategorizedShoppingItem.categoryName groups).
Proof.
  intros Hgroups.
  assert (Hplain : plain_categories (allItems s)).
  { intros item Hin. destruct (inherited (category_key item)) eqn:Hitem; [| reflexivity].
    rewrite categorizedItems_throws in Hgroups; [discriminate |].
    apply Exists_exists. exists item. split; assumption. }
  destruct (categorizedItems_returns h s Hplain) as (categories & Hgrouped & Hreturns).
  rewrite Hreturns in Hgroups. injection Hgroups as <-.
  rewrite map_map. cbn [CategorizedShoppingItem.categoryName]. rewrite map_id.
  destruct (categoryCosts_costed h s) as (costsMap & [Hkeys Hown] & ->).
  apply perm_trans with (map fst costsMap);
    [apply Permutation_map, Array_sort_permutation |].
  apply perm_trans with (Object_keys categories);
    [| apply Permutation_sym, Array_sort_permutation].
  apply NoDup_Permutation; [exact Hkeys | apply Hgrouped |].
  intros k. rewrite (grouped_keys _ _ k Hgrouped). split.
  - intros Hk Hempty. apply (proj1 (own_None_keys _ costsMap k)); [| exact Hk].
    rewrite Hown, Hempty. reflexivity.
  - intros Hbucket.
    destruct (in_dec string_dec k (map fst costsMap)) as [Hk | Habsent];
      [exact Hk | exfalso].
    apply (own_None_keys _ costsMap k) in Habsent. rewrite Hown in Habsent.
    destruct (bucket k (allItems s)); [apply Hbucket; reflexivity | discriminate].
Qed.

Lemma categoryCosts_same_categories_witness :
  Permutation (map fst (categoryCosts offline (store tiled))) ["Flooring"].
Proof.
  apply (categoryCosts_same_categories offline (store tiled)
           [CategorizedShoppingItem.mk "Flooring" [stored_tile]]).
  reflexivity.
Defined.

(* ===================================================================== *)
(** ** The workflows: requests and result slots *)

Lemma requests_app (a b : list effect) : requests (a ++ b) = requests a ++ requests b.
Proof.
  induction a as [| e r IH]; cbn [app requests].
  - reflexivity.
  - destruct e; rewrite IH; reflexivity.
Qed.

(** The whole of a run of [generateRenovationMaterials]. *)
Lemma generateRenovationMaterials_run (h : Host) (w : World) (userPrompt : string) :
  run h w (generateRenovationMaterials userPrompt)
  = match materials_reply h (calls w) userPrompt with
    | Threw error =>
        mkWorld
          (assign (isGenerating_set false)
             (assign (failure materials_error_prefix error)
                (assign (aiError_set None) (assign (isGenerating_set true) (store w)))))
          (effects w ++
           [ Assigned (isGenerating_set true);
             Assigned (aiError_set None);
             Requested (MaterialsRequest userPrompt);
             ConsoleError "Error generating renovation materials:" error;
             Assigned (failure materials_error_prefix error);
             Assigned (isGenerating_set false) ])
          (S (calls w))
    | Returned entries =>
        mkWorld
          (assign (isGenerating_set false)
             (assign (itemsSignal_set
                        (itemsSignal (store w) ++ shoppingItems_from h (S (calls w)) entries))
                (assign (aiError_set None) (assign (isGenerating_set true) (store w)))))
          (effects w ++
           [ Assigned (isGenerating_set true);
             Assigned (aiError_set None);
             Requested (MaterialsRequest userPrompt);
             Assigned (itemsSignal_set
                         (itemsSignal (store w)
                          ++ shoppingItems_from h (S (calls w)) entries));
             Assigned (isGenerating_set false) ])
          (2 * List.length entries + S (calls w))
    end.
Proof.
  unfold materials_reply, generateRenovationMaterials. unfold_method.
  destruct (generateContent h (calls w) _) as [e | text]; reduce_world.
  - flatten_effects. reflexivity.
  - destruct (JSON_parse_materials h (trim text)) as [e | [e | entries]]; reduce_world.
    + flatten_effects. reflexivity.
    + flatten_effects. reflexivity.
    + rewrite mapM_toShoppingItem. reduce_world. flatten_effects. reflexivity.
Qed.

Lemma generateDetailedAnalysis_run (h : Host) (w : World) (userPrompt : string) :
  run h w (generateDetailedAnalysis userPrompt)
  = mkWorld
      (store (run h w (generateDetailedAnalysis userPrompt)))
      (effects w ++
       [ Assigned (isGeneratingDetailedAnalysis_set true);
         Assigned (aiError_set None);
         Assigned (detailedAnalysisResult_set None);
         Requested (DetailedAnalysisRequest userPrompt) ]
       ++ match generateContent h (calls w) (DetailedAnalysisRequest userPrompt) with
          | Threw error =>
              [ ConsoleError "Error generating detailed analysis:" error;
                Assigned (failure analysis_error_prefix error) ]
          | Returned text => [ Assigned (detailedAnalysisResult_set (Some (trim text))) ]
          end
       ++ [ Assigned (isGeneratingDetailedAnalysis_set false) ])
      (S (calls w)).
Proof.
  unfold generateDetailedAnalysis. unfold_method.
  destruct (generateContent h (calls w) _) as [e | text]; reduce_world;
    flatten_effects; reflexivity.
Qed.

Lemma generateShoppingListSuggestions_run (h : Host) (w : World)
  (shoppingItems : list ShoppingItem.t) :
  shoppingItems <> [] ->
  run h w (generateShoppingListSuggestions shoppingItems)
  = mkWorld
      (store (run h w (generateShoppingListSuggestions shoppingItems)))
      (effects w ++ suggestions_opening
       ++ [ Requested (ShoppingListRequest (map itemForPrompt shoppingItems)) ]
       ++ match suggestions_reply h (calls w) shoppingItems with
          | Threw error =>
              [ ConsoleError "Error generating shopping list suggestions:" error;
                Assigned (failure suggestions_error_prefix error) ]
          | Returned generated => [ Assigned (shoppingListSuggestions_set generated) ]
          end
       ++ [ Assigned (isGeneratingShoppingList_set false) ])
      (S (calls w)).
Proof.
  intros Hitems. unfold suggestions_reply, generateShoppingListSuggestions.
  destruct shoppingItems as [| item rest]; [contradiction |].
  cbn [List.length Nat.eqb]. unfold_method.
  destruct (generateContent h (calls w) _) as [e | text]; reduce_world.
  - flatten_effects. reflexivity.
  - destruct (JSON_parse_suggestions h (trim text)) as [e | generated]; reduce_world;
      flatten_effects; reflexivity.
Qed.

Lemma generateOperationalBrief_run (h : Host) (w : World)
  (detailedAnalysis : option string) (shoppingItems : list ShoppingItem.t)
  (productSuggestions : list GeneratedProductSuggestion.t) :
  run h w (generateOperationalBrief detailedAnalysis shoppingItems productSuggestions)
  = mkWorld
      (store (run h w (generateOperationalBrief detailedAnalysis shoppingItems
                                                productSuggestions)))
      (effects w ++
       [ Assigned (isGeneratingOperationalBrief_set true);
         Assigned (aiError_set None);
         Assigned (operationalBriefResult_set None) ]
       ++ (if nothing_to_brief detailedAnalysis shoppingItems productSuggestions
           then [ Assigned (aiError_set (Some no_data_error)) ]
           else
             Requested (OperationalBriefRequest detailedAnalysis shoppingItems
                                                productSuggestions)
             :: match generateContent h (calls w)
                        (OperationalBriefRequest detailedAnalysis shoppingItems
                                                 productSuggestions) with
                | Threw error =>
                    [ ConsoleError "Error generating operational brief:" error;
                      Assigned (failure brief_error_prefix error) ]
                | Returned text => [ Assigned (operationalBriefResult_set (Some (trim text))) ]
                end)
       ++ [ Assigned (isGeneratingOperationalBrief_set false) ])
      (if nothing_to_brief detailedAnalysis shoppingItems productSuggestions
       then calls w else S (calls w)).
Proof.
  unfold generateOperationalBrief, nothing_to_brief.
  destruct (falsy detailedAnalysis && (List.length shoppingItems =? 0)%nat
            && (List.length productSuggestions =? 0)%nat)%bool.
  - unfold_method. flatten_effects. reflexivity.
  - unfold_method.
    destruct (generateContent h (calls w) _) as [e | text]; reduce_world;
      flatten_effects; reflexivity.
Qed.

Ltac count_requests :=
  rewrite ?requests_app; cbn [requests app];
  repeat match goal with
         | |- context [match ?reply with Threw _ => _ | Returned _ => _ end] =>
             destruct reply; cbn [requests app]
         end;
  rewrite ?app_nil_r; try reflexivity.

(** X13: a run of a workflow sends one request, carrying the arguments it
    was given, and never a second one, whatever the answer; the two guarded
    workflows send none when their guard rejects the call: an empty list of
    items for the suggestions, nothing at all to summarise for the brief.
    [generateRenovationMaterials] and [generateDetailedAnalysis] have no
    guard: they send their request for every description, the empty one
    too. *)
Theorem workflow_requests (h : Host) (w : World) :
  (forall userPrompt : string,
      requests (effects (run h w (generateRenovationMaterials userPrompt)))
      = requests (effects w) ++ [MaterialsRequest userPrompt])
  /\ (forall userPrompt : string,
        requests (effects (run h w (generateDetailedAnalysis userPrompt)))
        = requests (effects w) ++ [DetailedAnalysisRequest userPrompt])
  /\ (forall shoppingItems : list ShoppingItem.t,
        requests (effects (run h w (generateShoppingListSuggestions shoppingItems)))
        = requests (effects w)
          ++ match shoppingItems with
             | [] => []
             | _ => [ShoppingListRequest (map itemForPrompt shoppingItems)]
             end)
  /\ (forall (detailedAnalysis : option string) (shoppingItems : list ShoppingItem.t)
             (productSuggestions : list GeneratedProductSuggestion.t),
        requests (effects (run h w (generateOperationalBrief detailedAnalysis shoppingItems
                                                             productSuggestions)))
        = requests (effects w)
          ++ if nothing_to_brief detailedAnalysis shoppingItems productSuggestions
             then []
             else [OperationalBriefRequest detailedAnalysis shoppingItems
                                           productSuggestions]).
Proof.
  split; [| split; [| split]].
  - intros userPrompt. rewrite generateRenovationMaterials_run.
    destruct (materials_reply h (calls w) userPrompt); reduce_world; count_requests.
  - intros userPrompt. rewrite generateDetailedAnalysis_run. reduce_world. count_requests.
  - intros [| item rest].
    + rewrite generateShoppingListSuggestions_empty. reduce_world. count_requests.
    + rewrite generateShoppingListSuggestions_run by discriminate.
      reduce_world. count_requests.
  - intros detailedAnalysis shoppingItems productSuggestions.
    rewrite generateOperationalBrief_run. reduce_world.
    destruct (nothing_to_brief _ _ _); count_requests.
Qed.

(** X14: no workflow leaves an earlier result in its slot. After a run the
    analysis (the brief, the suggestion list) is what this run received,
    trimmed, or it is empty, when the request failed or was rejected; what
    the slot held before has no part in it. *)
Theorem results_never_stale (h : Host) (w : World) :
  (forall userPrompt : string,
      detailedAnalysisResult (store (run h w (generateDetailedAnalysis userPrompt)))
      = match generateContent h (calls w) (DetailedAnalysisRequest userPrompt) with
        | Returned text => Some (trim text)
        | Threw _ => None
        end)
  /\ (forall shoppingItems : list ShoppingItem.t,
        shoppingListSuggestions
          (store (run h w (generateShoppingListSuggestions shoppingItems)))
        = match shoppingItems with
          | [] => []
          | _ => match suggestions_reply h (calls w) shoppingItems with
                 | Returned generated => generated
                 | Threw _ => []
                 end
          end)
  /\ (forall (detailedAnalysis : option string) (shoppingItems : list ShoppingItem.t)
             (productSuggestions : list GeneratedProductSuggestion.t),
        operationalBriefResult
          (store (run h w (generateOperationalBrief detailedAnalysis shoppingItems
                                                    productSuggestions)))
        = if nothing_to_brief detailedAnalysis shoppingItems productSuggestions then None
          else match generateContent h (calls w)
                       (OperationalBriefRequest detailedAnalysis shoppingItems
                                                productSuggestions) with
               | Returned text => Some (trim text)
               | Threw _ => None
               end).
Proof.
  split; [| split].
  - intros userPrompt. rewrite generateDetailedAnalysis_store.
    destruct (generateContent h (calls w) _); reflexivity.
  - intros [| item rest].
    + rewrite generateShoppingListSuggestions_empty. reflexivity.
    + rewrite generateShoppingListSuggestions_store by discriminate.
      destruct (suggestions_reply h (calls w) _); reflexivity.
  - intros detailedAnalysis shoppingItems productSuggestions.
    rewrite generateOperationalBrief_store.
    destruct (nothing_to_brief _ _ _); [reflexivity |].
    destruct (generateContent h (calls w) _); reflexivity.
Qed.

(* ===================================================================== *)
(** ** The handlers that start a workflow *)








(* ===================================================================== *)
(** ** [trim] *)

Lemma trimStart_head (s : string) :
  trimStart s = "" \/ exists c r, trimStart s = String c r /\ is_white_space c = false.
Proof.
  induction s as [| c r IH]; cbn [trimStart].
  - left. reflexivity.
  - destruct (is_white_space c) eqn:Hc; [exact IH |].
    right. exists c, r. split; [reflexivity | exact Hc].
Qed.

Lemma trimEnd_head (c : ascii) (r : string) :
  is_white_space c = false -> exists r', trimEnd (String c r) = String c r'.
Proof.
  intros Hc. cbn [trimEnd]. destruct (trimEnd r) as [| c' r'].
  - rewrite Hc. exists "". reflexivity.
  - exists (String c' r'). reflexivity.
Qed.

Lemma trimEnd_cons (c : ascii) (r : string) :
  trimEnd (String c r)
  = match trimEnd r with
    | EmptyString => if is_white_space c then EmptyString else String c EmptyString
    | r' => String c r'
    end.
Proof. reflexivity. Qed.

Lemma trimEnd_twice (s : string) : trimEnd (trimEnd s) = trimEnd s.
Proof.
  induction s as [| c r IH]; [reflexivity |].
  rewrite trimEnd_cons. destruct (trimEnd r) as [| c' r'] eqn:Hr.
  - destruct (is_white_space c) eqn:Hc; [reflexivity |].
    rewrite trimEnd_cons. cbn [trimEnd]. rewrite Hc. reflexivity.
  - rewrite trimEnd_cons, IH. reflexivity.
Qed.

Lemma trim_twice (s : string) : trim (trim s) = trim s.
Proof.
  unfold trim. destruct (trimStart_head s) as [Hempty | (c & r & Hhead & Hc)].
  - rewrite Hempty. reflexivity.
  - rewrite Hhead. destruct (trimEnd_head c r Hc) as (r' & Hend).
    rewrite Hend. cbn [trimStart]. rewrite Hc, <- Hend. apply trimEnd_twice.
Qed.

Lemma trim_neat (s : string) : trim s <> "" -> neat (trim s).
Proof. intros Hs. split; [apply trim_twice | exact Hs]. Qed.

Lemma or_default_neat (s d : string) : neat d -> neat (or_default (trim s) d).
Proof.
  intros Hd. unfold or_default.
  destruct (String.eqb_spec (trim s) "") as [_ | Hs]; [exact Hd | apply trim_neat; exact Hs].
Qed.

Lemma Nekategorizirano_neat : neat Nekategorizirano.
Proof. split; [reflexivity | discriminate]. Qed.

Lemma kom_neat : neat kom.
Proof. split; [reflexivity | discriminate]. Qed.

Lemma or_default_of_neat (s d : string) : neat s -> or_default s d = s.
Proof.
  intros [_ Hs]. unfold or_default.
  destruct (String.eqb_spec s "") as [Heq | _]; [contradiction | reflexivity].
Qed.

(* ===================================================================== *)
(** ** The component's list handlers *)

Lemma updated_presentable (id : string) (updates : Partial.t) (item : ShoppingItem.t) :
  from_component updates -> presentable item -> presentable (updated id updates item).
Proof.
  intros (_ & Hcost & Hname & Hcategory & Hunit) (Hn & Hc & Hu & Hconsistent).
  assert (Hconsistent' : consistent (updated id updates item))
    by (apply updated_consistent; assumption).
  unfold presentable. split; [| split; [| split; [| exact Hconsistent']]];
    unfold updated; destruct (ShoppingItem.id item =? id)%string; try assumption;
    cbn [ShoppingItem.name ShoppingItem.category ShoppingItem.unit spread].
  - destruct (Partial.name updates) as [n |]; cbn [overridden];
      [apply Hname; reflexivity | exact Hn].
  - destruct (Partial.category updates) as [c |]; cbn [overridden]; [| exact Hc].
    rewrite or_default_of_neat; apply Hcategory; reflexivity.
  - destruct (Partial.unit updates) as [u |]; cbn [overridden]; [| exact Hu].
    rewrite or_default_of_neat; apply Hunit; reflexivity.
Qed.

Lemma updateItem_presentable (h : Host) (w : World) (id : string) (updates : Partial.t) :
  from_component updates ->
  Forall presentable (allItems (store w)) ->
  Forall presentable (allItems (store (run h w (updateItem id updates)))).
Proof.
  intros Hupdates Hall. rewrite allItems_updateItem. apply Forall_map.
  revert Hall. apply Forall_impl. intros item. apply updated_presentable. exact Hupdates.
Qed.

Ltac from_component_fields :=
  unfold from_component; split; [| split; [| split; [| split]]]; cbn; intros;
  first [ reflexivity
        | discriminate
        | match goal with
          | H : Some _ = Some _ |- _ => injection H as <-
          end ].

Lemma run_ret_tt (h : Host) (w : World) : run h w (ret tt) = w.
Proof. reflexivity. Qed.

(** The whole of a run of the component's [addItem]. *)
Lemma Planner_addItem_run (h : Host) (w : World) (form : Form.t) :
  Planner.addItem form h w
  = if ((trim (Form.newItemName form) =? "")%string
        || (Form.newItemQuantity form <=? 0)%float
        || (Form.newItemPricePerUnit form <? 0)%float)%bool
    then ((form, Some Planner.invalid_item_alert), w)
    else ((Form.cleared, None),
          run h w (addItem (Draft.mk (trim (Form.newItemName form))
                                     (or_default (trim (Form.newItemCategory form))
                                                 Nekategorizirano)
                                     (Form.newItemQuantity form)
                                     (or_default (trim (Form.newItemUnit form)) kom)
                                     (Form.newItemPricePerUnit form)
                                     false))).
Proof.
  unfold Planner.addItem.
  destruct ((trim (Form.newItemName form) =? "")%string
            || (Form.newItemQuantity form <=? 0)%float
            || (Form.newItemPricePerUnit form <? 0)%float)%bool; reflexivity.
Qed.

Lemma handle_presentable (toNumber : string -> number) (h : Host) (w : World) (g : gesture) :
  Forall presentable (allItems (store w)) ->
  Forall presentable (allItems (store (run h w (handle toNumber g)))).
Proof.
  intros Hall.
  destruct g as [form | id | item | item value | item value | item value | item value
                 | item | item | item value | confirmed]; cbn [handle].
  - unfold run, bind. rewrite Planner_addItem_run.
    destruct (trim (Form.newItemName form) =? "")%string eqn:Hname;
      cbn [orb]; [exact Hall |].
    destruct ((Form.newItemQuantity form <=? 0)%float
              || (Form.newItemPricePerUnit form <? 0)%float)%bool; [exact Hall |].
    cbn [snd ret]. rewrite allItems_addItem. apply Forall_app. split; [exact Hall |].
    constructor; [| constructor].
    apply String.eqb_neq in Hname.
    unfold presentable.
    cbn [ShoppingItem.name ShoppingItem.category ShoppingItem.unit Draft.name
         Draft.category Draft.unit].
    rewrite (or_default_of_neat
               (or_default (trim (Form.newItemCategory form)) Nekategorizirano))
      by apply or_default_neat, Nekategorizirano_neat.
    rewrite (or_default_of_neat (or_default (trim (Form.newItemUnit form)) kom))
      by apply or_default_neat, kom_neat.
    split; [apply trim_neat; exact Hname |].
    split; [apply or_default_neat, Nekategorizirano_neat |].
    split; [apply or_default_neat, kom_neat | reflexivity].
  - unfold Planner.removeItem. rewrite allItems_removeItem. rewrite Forall_forall in *.
    intros item Hin. apply filter_In in Hin. apply Hall. apply Hin.
  - apply updateItem_presentable; [from_component_fields | exact Hall].
  - unfold Planner.updateName.
    destruct (String.eqb_spec (trim value) "") as [_ | Hname]; [exact Hall |].
    apply updateItem_presentable; [| exact Hall].
    from_component_fields. apply trim_neat. exact Hname.
  - apply updateItem_presentable; [| exact Hall].
    from_component_fields. apply or_default_neat, Nekategorizirano_neat.
  - unfold Planner.updateQuantity.
    destruct (negb (isNaN (toNumber value)) && (0 <? toNumber value)%float)%bool;
      [| exact Hall].
    apply updateItem_presentable; [from_component_fields | exact Hall].
  - apply updateItem_presentable; [| exact Hall].
    from_component_fields. apply or_default_neat, kom_neat.
  - apply updateItem_presentable; [from_component_fields | exact Hall].
  - unfold Planner.decreaseQuantity.
    destruct (1 <? ShoppingItem.quantity item)%float; [| exact Hall].
    apply updateItem_presentable; [from_component_fields | exact Hall].
  - unfold Planner.updatePricePerUnit.
    destruct (negb (isNaN (toNumber value)) && (0 <=? toNumber value)%float)%bool;
      [| exact Hall].
    apply updateItem_presentable; [from_component_fields | exact Hall].
  - destruct confirmed; [| exact Hall].
    cbn [Planner.clearAll]. rewrite allItems_clearAllItems. constructor.
Qed.

(** X17: what goes through the component stays presentable. Starting from
    a collection whose items have trimmed, non-empty names, categories and
    units and a [totalCost] equal to [quantity * pricePerUnit] (the empty
    collection, for one), no sequence of the component's list handlers
    (submitting the form, removing, toggling, editing a name, category,
    quantity, unit or price, stepping the quantity, clearing) stores an item
    that is otherwise, whatever texts are typed and however the host reads
    them as numbers. *)
Theorem component_keeps_items_presentable (toNumber : string -> number) (h : Host)
  (gs : list gesture) :
  forall w : World,
    Forall presentable (allItems (store w)) ->
    Forall presentable (allItems (store (run h w (handle_all toNumber gs)))).
Proof.
  induction gs as [| g rest IH]; intros w Hall; cbn [handle_all].
  - exact Hall.
  - rewrite run_then. apply IH. apply handle_presentable. exact Hall.
Qed.

Lemma component_keeps_items_presentable_witness :
  Forall presentable
    (allItems
       (store (run offline (fresh initial)
                   (handle_all reads_three
                      [SubmitForm (Form.mk " Tile " "" 10%float " m2" 12%float);
                       EditCategory stored_tile "  ";
                       EditQuantity stored_tile "3";
                       EditName stored_tile "   "])))).
Proof.
  apply (component_keeps_items_presentable reads_three offline _ (fresh initial)).
  constructor.
Defined.

Lemma handle_edit (toNumber : string -> number) (h : Host) (w : World) (g : gesture) :
  edits g = true ->
  run h w (handle toNumber g) = w
  \/ exists id updates,
       Partial.id updates = None
       /\ run h w (handle toNumber g) = run h w (updateItem id updates).
Proof.
  destruct g as [form | id | item | item value | item value | item value | item value
                 | item | item | item value | confirmed]; cbn [edits handle];
    try discriminate; intros _.
  - right. eexists. eexists. split; [| reflexivity]. reflexivity.
  - unfold Planner.updateName. destruct (trim value =? "")%string;
      [left; reflexivity | right; eexists; eexists; split; [| reflexivity]; reflexivity].
  - right. eexists. eexists. split; [| reflexivity]. reflexivity.
  - unfold Planner.updateQuantity.
    destruct (negb (isNaN (toNumber value)) && (0 <? toNumber value)%float)%bool;
      [right; eexists; eexists; split; [| reflexivity]; reflexivity | left; reflexivity].
  - right. eexists. eexists. split; [| reflexivity]. reflexivity.
  - right. eexists. eexists. split; [| reflexivity]. reflexivity.
  - unfold Planner.decreaseQuantity.
    destruct (1 <? ShoppingItem.quantity item)%float;
      [right; eexists; eexists; split; [| reflexivity]; reflexivity | left; reflexivity].
  - unfold Planner.updatePricePerUnit.
    destruct (negb (isNaN (toNumber value)) && (0 <=? toNumber value)%float)%bool;
      [right; eexists; eexists; split; [| reflexivity]; reflexivity | left; reflexivity].
Qed.

Lemma store_updateItem (h : Host) (w : World) (id : string) (updates : Partial.t) :
  store (run h w (updateItem id updates))
  = assign (itemsSignal_set (allItems (store (run h w (updateItem id updates))))) (store w).
Proof. reflexivity. Qed.

(** X18: a handler that edits a stored item (toggling, editing a name, a
    category, a quantity, a unit or a price, stepping the quantity) changes
    no id and no signal but the collection, and neither adds nor removes an
    item. *)
Theorem component_edits_keep_ids (toNumber : string -> number) (h : Host) (w : World)
  (g : gesture) :
  edits g = true ->
  map ShoppingItem.id (allItems (store (run h w (handle toNumber g))))
  = map ShoppingItem.id (allItems (store w))
  /\ store (run h w (handle toNumber g))
     = assign (itemsSignal_set (allItems (store (run h w (handle toNumber g))))) (store w)
  /\ requests (effects (run h w (handle toNumber g))) = requests (effects w).
Proof.
  intros Hedit.
  destruct (handle_edit toNumber h w g Hedit) as [-> | (id & updates & Hid & ->)].
  - split; [reflexivity |]. split; [symmetry; apply assign_same_items | reflexivity].
  - split; [apply updateItem_keeps_ids; exact Hid |].
    split; [apply store_updateItem |].
    unfold run, updateItem, itemsSignal_update, bind, read, set. reduce_world.
    rewrite requests_app. cbn [requests]. apply app_nil_r.
Qed.

Lemma component_edits_keep_ids_witness :
  map ShoppingItem.id
      (allItems (store (run offline tiled (handle reads_three (EditQuantity stored_tile "3")))))
  = ["1700000000000"].
Proof.
  apply (proj1 (component_edits_keep_ids reads_three offline tiled
                  (EditQuantity stored_tile "3") eq_refl)).
Defined.

Lemma same_id_same_item (items : list ShoppingItem.t) (a b : ShoppingItem.t) :
  NoDup (map ShoppingItem.id items) ->
  In a items -> In b items -> ShoppingItem.id a = ShoppingItem.id b -> a = b.
Proof.
  induction items as [| x r IH]; cbn [map In]; intros Hids Ha Hb Hab; [destruct Ha |].
  inversion Hids as [| ? ? Hfresh Hrest]; subst.
  destruct Ha as [-> | Ha], Hb as [-> | Hb].
  - reflexivity.
  - exfalso. apply Hfresh. rewrite Hab. apply in_map. exact Hb.
  - exfalso. apply Hfresh. rewrite <- Hab. apply in_map. exact Ha.
  - apply IH; assumption.
Qed.

(** X19: where no two items share an id, toggling a stored item turns its
    [purchased] flag over and leaves the rest of the collection as it is,
    and toggling the item again brings the collection back. *)
Theorem togglePurchased_twice (h : Host) (w : World) (item : ShoppingItem.t) :
  NoDup (map ShoppingItem.id (allItems (store w))) ->
  In item (allItems (store w)) ->
  allItems (store (run h w (Planner.togglePurchased item)))
  = map (fun stored => if has_id (ShoppingItem.id item) stored then flipped item else stored)
        (allItems (store w))
  /\ allItems (store (run h (run h w (Planner.togglePurchased item))
                          (Planner.togglePurchased (flipped item))))
     = allItems (store w).
Proof.
  intros Hids Hitem.
  assert (Hfirst : forall stored,
             In stored (allItems (store w)) ->
             updated (ShoppingItem.id item)
                     (Planner.purchased_only (negb (ShoppingItem.purchased item))) stored
             = if has_id (ShoppingItem.id item) stored then flipped item else stored).
  { intros stored Hstored. unfold updated, has_id.
    destruct (String.eqb_spec (ShoppingItem.id stored) (ShoppingItem.id item)) as [Hid | _];
      [| reflexivity].
    rewrite (same_id_same_item _ _ _ Hids Hstored Hitem Hid). reflexivity. }
  unfold Planner.togglePurchased. rewrite !allItems_updateItem. split.
  - apply map_ext_in. exact Hfirst.
  - rewrite map_map. rewrite <- (map_id (allItems (store w))) at 2.
    apply map_ext_in. intros stored Hstored. rewrite (Hfirst stored Hstored).
    unfold has_id.
    destruct (String.eqb_spec (ShoppingItem.id stored) (ShoppingItem.id item)) as [Hid | Hne].
    + rewrite (same_id_same_item _ _ _ Hids Hstored Hitem Hid).
      unfold updated. cbn [flipped ShoppingItem.id]. rewrite String.eqb_refl.
      destruct item as [i n c q u p t b]. cbn. rewrite negb_involutive. reflexivity.
    + apply updated_other. exact Hne.
Qed.

Lemma togglePurchased_twice_witness :
  allItems (store (run offline tiled (Planner.togglePurchased stored_tile)))
  = [flipped stored_tile]
  /\ allItems (store (run offline (run offline tiled (Planner.togglePurchased stored_tile))
                          (Planner.togglePurchased (flipped stored_tile))))
     = [stored_tile].
Proof.
  apply (togglePurchased_twice offline tiled stored_tile).
  - repeat constructor. intros [].
  - left. reflexivity.
Defined.

(** X20: [updateUserBudget] keeps the budget a number that is not below
    zero, whatever the text and however the host reads it as a number, and
    it does not touch the collection. *)
Theorem updateUserBudget_keeps_budget_valid (toNumber : string -> number) (h : Host)
  (w : World) (value : string) :
  valid_budget (userBudget (store w)) ->
  valid_budget (userBudget (store (run h w (Planner.updateUserBudget toNumber value))))
  /\ allItems (store (run h w (Planner.updateUserBudget toNumber value)))
     = allItems (store w).
Proof.
  intros Hbudget. unfold Planner.updateUserBudget.
  destruct (negb (isNaN (toNumber value)) && (0 <=? toNumber value)%float)%bool eqn:Hguard.
  - apply andb_prop in Hguard. destruct Hguard as [Hnumber Hpositive].
    apply negb_true_iff in Hnumber. split; [split; assumption | reflexivity].
  - destruct (value =? "")%string.
    + split; [split; reflexivity | reflexivity].
    + split; [exact Hbudget | reflexivity].
Qed.

Lemma updateUserBudget_keeps_budget_valid_witness :
  valid_budget
    (userBudget (store (run offline (fresh initial)
                            (Planner.updateUserBudget reads_three "3"))))
  /\ allItems (store (run offline (fresh initial) (Planner.updateUserBudget reads_three "3")))
     = [].
Proof.
  apply (updateUserBudget_keeps_budget_valid reads_three offline (fresh initial) "3").
  split; reflexivity.
Defined.

(* ===================================================================== *)
(** ** [groupedShoppingListSuggestions] *)

Section MapsOfLists.

Variables V X : Type.
Variable weight : V -> list X.

Lemma Map_set_twice (m : list (string * V)) (k : string) (v v' : V) :
  own m k = None -> Map_set k v' (Map_set k v m) = Map_set k v' m.
Proof.
  intros Hown. unfold Map_set at 2 3. rewrite Hown.
  unfold Map_set. rewrite own_app, Hown. cbn [own]. rewrite String.eqb_refl.
  induction m as [| [k0 v0] r IH]; cbn [app replace own] in *.
  - rewrite String.eqb_refl. reflexivity.
  - destruct (k0 =? k)%string; [discriminate | rewrite IH by exact Hown; reflexivity].
Qed.

(** Setting a key to a value that weighs one element more than the value it
    had adds that element to the weight of the map. *)
Lemma weight_Map_set (m : list (string * V)) (k : string) (v empty : V) (x : X) :
  weight empty = [] ->
  Permutation (weight v)
              (x :: weight match own m k with Some v0 => v0 | None => empty end) ->
  Permutation (List.concat (map (fun entry => weight (snd entry)) (Map_set k v m)))
              (x :: List.concat (map (fun entry => weight (snd entry)) m)).
Proof.
  intros Hempty. unfold Map_set. destruct (own m k) as [v0 |] eqn:Hown; intros Hv.
  - revert Hown. induction m as [| [k0 v0'] r IH]; cbn [own replace]; [discriminate |].
    destruct (k0 =? k)%string; cbn [map List.concat snd].
    + intros [= ->]. apply (Permutation_app_tail _ Hv).
    + intros Hown. apply perm_trans with (weight v0' ++ x :: List.concat
                                            (map (fun entry => weight (snd entry)) r)).
      * apply Permutation_app_head. apply IH. exact Hown.
      * apply Permutation_sym, Permutation_middle.
  - rewrite Hempty in Hv. rewrite map_app, concat_app. cbn [map List.concat snd].
    rewrite app_nil_r.
    apply perm_trans with (List.concat (map (fun entry => weight (snd entry)) m) ++ [x]).
    + apply Permutation_app_head. exact Hv.
    + apply Permutation_sym, Permutation_cons_append.
Qed.

End MapsOfLists.

Lemma Map_get_list_own {V} (m : list (string * list V)) (k : string) :
  Map_get_list m k = match own m k with Some v => v | None => [] end.
Proof. reflexivity. Qed.

(** The steps of [file_suggestion] that create an entry before filling it
    come to one [set] of the filled entry. *)
Lemma file_suggestion_sets (storeMap : list (string * ProductsByCategory))
  (sug : GeneratedProductSuggestion.t) :
  file_suggestion storeMap sug
  = Map_set (store_key sug)
      (Map_set (suggestion_category_key sug)
         (Map_get_list (Map_get_list storeMap (store_key sug))
                       (suggestion_category_key sug) ++ [sug])
         (Map_get_list storeMap (store_key sug)))
      storeMap.
Proof.
  unfold file_suggestion, Map_has, Map_get, ProductsByCategory in *. cbv zeta.
  set (s := store_key sug). set (c := suggestion_category_key sug).
  assert (Hinner : forall m : ProductsByCategory,
             Map_set c (Map_get_list (if match own m c with Some _ => true | None => false end
                                      then m else Map_set c [] m) c ++ [sug])
                     (if match own m c with Some _ => true | None => false end
                      then m else Map_set c [] m)
             = Map_set c (Map_get_list m c ++ [sug]) m).
  { intros m. destruct (own m c) as [ps |] eqn:Hown; [reflexivity |].
    rewrite !Map_get_list_own, own_Map_set_same, Hown. cbn [app].
    apply Map_set_twice. exact Hown. }
  destruct (own storeMap s) as [m |] eqn:Hown.
  - rewrite Hinner. reflexivity.
  - rewrite (Map_get_list_own (Map_set s [] storeMap)), own_Map_set_same.
    rewrite (Map_get_list_own storeMap), Hown, Hinner.
    apply Map_set_twice. exact Hown.
Qed.

Lemma filed_nil : filed [] [].
Proof.
  split; [apply perm_nil |]. split; [constructor | discriminate].
Qed.

Lemma file_suggestion_filed (processed : list GeneratedProductSuggestion.t)
  (storeMap : list (string * ProductsByCategory)) (sug : GeneratedProductSuggestion.t) :
  filed processed storeMap -> filed (processed ++ [sug]) (file_suggestion storeMap sug).
Proof.
  intros (Hall & Hstores & Hinside). rewrite file_suggestion_sets.
  unfold ProductsByCategory in *.
  set (s := store_key sug). set (c := suggestion_category_key sug).
  set (categoryMap := Map_get_list storeMap s).
  assert (Hcategories : NoDup (map fst categoryMap)
                        /\ forall categoryName products,
                             own categoryMap categoryName = Some products ->
                             Forall (fun p => store_key p = s
                                              /\ suggestion_category_key p = categoryName)
                                    products).
  { unfold categoryMap. rewrite Map_get_list_own.
    destruct (own storeMap s) as [m |] eqn:Hown; [apply Hinside; exact Hown |].
    split; [constructor | discriminate]. }
  destruct Hcategories as [Hkeys Hproducts].
  split; [| split].
  - apply perm_trans with (sug :: processed);
      [| apply Permutation_cons_append].
    apply perm_trans with (sug :: all_products storeMap); [| apply perm_skip; exact Hall].
    unfold all_products.
    apply (weight_Map_set _ _ products_of storeMap s _ [] sug); [reflexivity |].
    fold (Map_get_list storeMap s). fold categoryMap. unfold products_of.
    apply (weight_Map_set _ _ (fun ps => ps) categoryMap c _ [] sug); [reflexivity |].
    fold (Map_get_list categoryMap c).
    apply Permutation_sym, Permutation_cons_append.
  - apply NoDup_Map_set. exact Hstores.
  - intros storeName m Hown.
    destruct (String.eqb_spec s storeName) as [<- | Hne].
    + rewrite own_Map_set_same in Hown. injection Hown as <-.
      split; [apply NoDup_Map_set; exact Hkeys |].
      intros categoryName products Hown.
      destruct (String.eqb_spec c categoryName) as [<- | Hne].
      * rewrite own_Map_set_same in Hown. injection Hown as <-.
        apply Forall_app. split; [| constructor; [split; reflexivity | constructor]].
        rewrite Map_get_list_own.
        destruct (own categoryMap c) as [ps |] eqn:Hps; [| constructor].
        apply Hproducts. exact Hps.
      * rewrite own_Map_set_other in Hown by exact Hne. apply Hproducts. exact Hown.
    + rewrite own_Map_set_other in Hown by exact Hne. apply Hinside. exact Hown.
Qed.

Lemma fold_file_suggestion_filed (rest : list GeneratedProductSuggestion.t) :
  forall processed storeMap,
    filed processed storeMap ->
    filed (processed ++ rest) (fold_left file_suggestion rest storeMap).
Proof.
  induction rest as [| sug rest IH]; intros processed storeMap Hfiled; cbn [fold_left].
  - rewrite app_nil_r. exact Hfiled.
  - change (processed ++ sug :: rest) with (processed ++ [sug] ++ rest).
    rewrite app_assoc. apply IH. apply file_suggestion_filed. exact Hfiled.
Qed.

Lemma groupedShoppingListSuggestions_filed (h : Host) (s : Store) :
  exists storeMap : list (string * ProductsByCategory),
    filed (shoppingListSuggestions s) storeMap
    /\ groupedShoppingListSuggestions h s
       = Array_sort (compare_by_storeName h)
           (map (fun entry => SuggestionStore.mk (fst entry)
                                                 (sorted_categories h (snd entry)))
                storeMap).
Proof.
  exists (fold_left file_suggestion (shoppingListSuggestions s) []).
  split; [apply (fold_file_suggestion_filed _ [] [] filed_nil) |].
  unfold groupedShoppingListSuggestions.
  destruct (shoppingListSuggestions s); reflexivity.
Qed.


Lemma In_sorted_categories (h : Host) (categoryMap : ProductsByCategory)
  (c : SuggestionCategory.t) :
  NoDup (map fst categoryMap) ->
  In c (sorted_categories h categoryMap) ->
  exists products,
    own categoryMap (SuggestionCategory.categoryName c) = Some products
    /\ SuggestionCategory.products c = Array_sort (compare_by_productName h) products.
Proof.
  intros Hkeys Hin. unfold sorted_categories in Hin.
  apply (Permutation_in _ (Array_sort_permutation _ _ _)) in Hin.
  apply in_map_iff in Hin. destruct Hin as ([name products] & <- & Hentry).
  exists products. split; [| reflexivity].
  apply (own_In _ _ _ _ Hkeys). exact Hentry.
Qed.

Lemma In_grouped (h : Host) (storeMap : list (string * ProductsByCategory))
  (g : SuggestionStore.t) :
  NoDup (map fst storeMap) ->
  In g (Array_sort (compare_by_storeName h)
          (map (fun entry => SuggestionStore.mk (fst entry)
                                                (sorted_categories h (snd entry)))
               storeMap)) ->
  exists categoryMap,
    own storeMap (SuggestionStore.storeName g) = Some categoryMap
    /\ SuggestionStore.categories g = sorted_categories h categoryMap.
Proof.
  intros Hkeys Hin.
  apply (Permutation_in _ (Array_sort_permutation _ _ _)) in Hin.
  apply in_map_iff in Hin. destruct Hin as ([name categoryMap] & <- & Hentry).
  exists categoryMap. split; [| reflexivity].
  apply (own_In _ _ _ _ Hkeys). exact Hentry.
Qed.


(** X22: for a [localeCompare] that orders any two strings, the stores of
    [groupedShoppingListSuggestions()] come in the order of their names, the
    categories of each store in the order of theirs, and the products of each
    category in the order of their product names. *)
Theorem groupedShoppingListSuggestions_sorted (h : Host) (s : Store) :
  (forall a b : string,
      precedes (localeCompare h) a b \/ precedes (localeCompare h) b a) ->
  Sorted (precedes (localeCompare h))
         (map SuggestionStore.storeName (groupedShoppingListSuggestions h s))
  /\ forall g : SuggestionStore.t,
       In g (groupedShoppingListSuggestions h s) ->
       Sorted (precedes (localeCompare h))
              (map SuggestionCategory.categoryName (SuggestionStore.categories g))
       /\ forall c : SuggestionCategory.t,
            In c (SuggestionStore.categories g) ->
            Sorted (precedes (localeCompare h))
                   (map GeneratedProductSuggestion.productName
                        (SuggestionCategory.products c)).
Proof.
  intros Htotal.
  destruct (groupedShoppingListSuggestions_filed h s)
    as (storeMap & (_ & Hstores & Hinside) & ->).
  split.
  - apply Sorted_map. apply (Array_sort_sorted _ (compare_by_storeName h)).
    intros a b. apply Htotal.
  - intros g Hg.
    destruct (In_grouped h storeMap g Hstores Hg) as (categoryMap & Hown & Hcategories).
    destruct (Hinside _ _ Hown) as [Hkeys _].
    rewrite Hcategories. split.
    + apply Sorted_map. apply (Array_sort_sorted _ (compare_by_categoryName h)).
      intros a b. apply Htotal.
    + intros c Hc.
      destruct (In_sorted_categories h categoryMap c Hkeys Hc) as (products & _ & ->).
      apply Sorted_map. apply (Array_sort_sorted _ (compare_by_productName h)).
      intros a b. apply Htotal.
Qed.

Lemma groupedShoppingListSuggestions_sorted_witness :
  Sorted (precedes byte_order)
         (map SuggestionStore.storeName
              (groupedShoppingListSuggestions offline
                 (assign (shoppingListSuggestions_set
                            [nail "b" "Tools" "Shop"; nail "a" " Tools" "Shop ";
                             nail "z" "" "  "; nail "k" "Tools" "Alpha"])
                         initial))).
Proof.
  apply (groupedShoppingListSuggestions_sorted offline _ byte_order_total).
Defined.

